(** * The chronon launcher [run.py]: environment resolution, mode routing,
      streaming de-duplication, retry and conditional download

    A shallow embedding of [api/py/ai/chronon/repo/run.py].

    - Python objects produced by [json.load] (and the [str]/[None] values
      that [argparse] hands over) are the inductive [pyval]; dictionaries
      are [gmap string _], so a dictionary has one value per key.
    - Python exceptions are the inductive [exn]; code that may raise returns
      an [outcome].
    - Code that reads or writes [os.environ], launches a subprocess or sleeps
      runs in the state-and-exception monad [M] over a [world].
    - What lives outside the program (the JSON decoder, the files on disk,
      the result of a subprocess, [str()] of a non-string object) is a field
      of the record [Host]; every general theorem holds for any host.
    - Text is a [string], a sequence of bytes: [bytes] as they are and a
      [str] by its UTF-8 encoding, so that [decode('utf-8')] is the
      identity on well-formed text. [str.strip] knows the white space of
      Unicode; the classes [\s] and [\d] of the one pattern of the program
      are modelled on ASCII text, and the statements about them say so. *)

From stdpp Require Import gmap strings list fin_maps.
From Stdlib Require Import ZArith Ascii String.

Set Warnings "-register-all".
Set Default Proof Using "Type".
Local Open Scope string_scope.
Local Open Scope Z_scope.

(** ** Python strings *)

Module PyStr.

(** The white space of [str] in the ASCII range: tab, line feed, vertical
    tab, form feed, carriage return, the four separators 0x1c-0x1f and the
    blank. *)
Definition is_space (c : ascii) : bool :=
  let n := nat_of_ascii c in
  ((9 <=? n)%nat && (n <=? 13)%nat) || ((28 <=? n)%nat && (n <=? 32)%nat).

Definition is_digit (c : ascii) : bool :=
  let n := nat_of_ascii c in (48 <=? n)%nat && (n <=? 57)%nat.

Definition is_empty (s : string) : bool :=
  match s with EmptyString => true | String _ _ => false end.

(** White space as [bytes.strip] sees it: the blank, tab, line feed,
    vertical tab, form feed and carriage return. *)
Definition is_bspace (c : ascii) : bool :=
  let n := nat_of_ascii c in
  ((9 <=? n)%nat && (n <=? 13)%nat) || (n =? 32)%nat.

(** Dropping the leading characters that satisfy [p]. *)
Fixpoint lstrip_by (p : ascii → bool) (s : string) : string :=
  match s with
  | EmptyString => EmptyString
  | String c r => if p c then lstrip_by p r else s
  end.

(** Dropping the trailing characters that satisfy [p]. *)
Fixpoint rstrip_by (p : ascii → bool) (s : string) : string :=
  match s with
  | EmptyString => EmptyString
  | String c r =>
      let r' := rstrip_by p r in
      if p c && is_empty r' then EmptyString else String c r'
  end.

(** [b.strip()] on [bytes] *)
Definition bstrip (s : string) : string := rstrip_by is_bspace (lstrip_by is_bspace s).

(** [s.split(sep)] for a one-character separator: never empty, and
    [''.split('/') = ['']]. *)
Fixpoint split_on (sep : ascii) (s : string) : list string :=
  match s with
  | EmptyString => [EmptyString]
  | String c r =>
      if Ascii.eqb c sep then EmptyString :: split_on sep r
      else match split_on sep r with
           | h :: t => String c h :: t
           | [] => [String c EmptyString]
           end
  end.

(** Splitting on runs of the characters that satisfy [p], no empty fields.
    The accumulator [cur] holds the field being read, reversed. *)
Fixpoint split_ws_aux (p : ascii → bool) (cur : list ascii) (s : string) : list string :=
  let flush (k : list string) :=
    match cur with [] => k | _ => string_of_list_ascii (rev cur) :: k end in
  match s with
  | EmptyString => flush []
  | String c r =>
      if p c then flush (split_ws_aux p [] r)
      else split_ws_aux p (c :: cur) r
  end.

(** [s.split()] on an ASCII [str] *)
Definition split_ws (s : string) : list string := split_ws_aux is_space [] s.

(** [b.split()] on [bytes] *)
Definition bsplit_ws (s : string) : list string := split_ws_aux is_bspace [] s.

(** [s.startswith(p)] *)
Fixpoint startswith (p s : string) : bool :=
  match p, s with
  | EmptyString, _ => true
  | String a p', String b s' => Ascii.eqb a b && startswith p' s'
  | String _ _, EmptyString => false
  end.

(** What follows the prefix [p] in [s], when [s] starts with [p]. *)
Fixpoint strip_prefix (p s : string) : option string :=
  match p, s with
  | EmptyString, _ => Some s
  | String a p', String b s' => if Ascii.eqb a b then strip_prefix p' s' else None
  | String _ _, EmptyString => None
  end.

(** The bytes of a text, given by their numbers. *)
Definition of_bytes (bytes : list nat) : string :=
  string_of_list_ascii (ascii_of_nat <$> bytes).

(** The white space of [str] beyond ASCII, each character in its UTF-8
    encoding: U+0085, U+00A0, U+1680, U+2000 to U+200A, U+2028, U+2029,
    U+202F, U+205F and U+3000. *)
Definition wide_spaces : list string :=
  of_bytes <$>
    ([[194; 133]; [194; 160]; [225; 154; 128];
     [226; 128; 128]; [226; 128; 129]; [226; 128; 130]; [226; 128; 131];
     [226; 128; 132]; [226; 128; 133]; [226; 128; 134]; [226; 128; 135];
     [226; 128; 136]; [226; 128; 137]; [226; 128; 138];
     [226; 128; 168]; [226; 128; 169]; [226; 128; 175];
     [226; 129; 159]; [227; 128; 128]] : list (list nat))%nat.

(** What follows the first character of [s] when that character is white
    space: one ASCII byte, or one of the encodings [wide]. *)
Definition after_space (wide : list string) (s : string) : option string :=
  match s with
  | EmptyString => None
  | String c r =>
      if is_space c then Some r
      else foldr (λ token found,
                    match strip_prefix token s with
                    | Some rest => Some rest
                    | None => found
                    end) None wide
  end.

(** Dropping the leading white space, one character at a time; the text
    has at most [fuel] characters. *)
Fixpoint lstrip_spaces (wide : list string) (fuel : nat) (s : string) : string :=
  match fuel with
  | O => s
  | S fuel' =>
      match after_space wide s with
      | Some rest => lstrip_spaces wide fuel' rest
      | None => s
      end
  end.

Definition reverse (s : string) : string :=
  string_of_list_ascii (rev (list_ascii_of_string s)).

(** [s.lstrip()] and [s.rstrip()] on a [str]; the trailing white space is
    the leading white space of the text read backwards. *)
Definition lstrip (s : string) : string :=
  lstrip_spaces wide_spaces (String.length s) s.

Definition rstrip (s : string) : string :=
  reverse (lstrip_spaces (reverse <$> wide_spaces) (String.length s) (reverse s)).

(** [s.strip()] on a [str] *)
Definition strip (s : string) : string := rstrip (lstrip s).

(** A text of ASCII characters only. *)
Definition is_ascii (c : ascii) : bool := (nat_of_ascii c <? 128)%nat.

Fixpoint ascii_only (s : string) : bool :=
  match s with
  | EmptyString => true
  | String c r => is_ascii c && ascii_only r
  end.




(** The last character, for [s.endswith('/')]. *)
Fixpoint last_char (s : string) : option ascii :=
  match s with
  | EmptyString => None
  | String c EmptyString => Some c
  | String _ r => last_char r
  end.

(** [p in s] for two strings: [p] occurs in [s] as a substring. *)
Fixpoint contains (p s : string) : bool :=
  startswith p s ||
  match s with
  | EmptyString => false
  | String _ r => contains p r
  end.

(** [c in s] for one character. *)
Fixpoint has_char (c : ascii) (s : string) : bool :=
  match s with
  | EmptyString => false
  | String d r => Ascii.eqb c d || has_char c r
  end.

(** [s.lower()] on ASCII letters. *)
Definition lower_char (c : ascii) : ascii :=
  let n := nat_of_ascii c in
  if (65 <=? n)%nat && (n <=? 90)%nat then ascii_of_nat (n + 32) else c.

Fixpoint lower (s : string) : string :=
  match s with
  | EmptyString => EmptyString
  | String c r => String (lower_char c) (lower r)
  end.

(** The longest prefix of decimal digits, and what follows it. *)
Fixpoint span_digits (s : string) : string * string :=
  match s with
  | EmptyString => (EmptyString, EmptyString)
  | String c r =>
      if is_digit c then let '(d, t) := span_digits r in (String c d, t)
      else (EmptyString, s)
  end.

(** [int(s)] for a string of decimal digits (no sign, no blanks). *)
Fixpoint int_digits (acc : Z) (s : string) : option Z :=
  match s with
  | EmptyString => Some acc
  | String c r =>
      if is_digit c then int_digits (10 * acc + (Z.of_nat (nat_of_ascii c) - 48)) r
      else None
  end.

Definition int_of (s : string) : option Z :=
  match s with
  | EmptyString => None
  | _ => int_digits 0 s
  end.

(** The digits of an integer literal after its first digit: single
    underscores may stand between digits. *)
Fixpoint int_groups (acc : Z) (s : string) : option Z :=
  match s with
  | EmptyString => Some acc
  | String c r =>
      if is_digit c then int_groups (10 * acc + (Z.of_nat (nat_of_ascii c) - 48)) r
      else if Ascii.eqb c "_" then
        match r with
        | String d r' =>
            if is_digit d then int_groups (10 * acc + (Z.of_nat (nat_of_ascii d) - 48)) r'
            else None
        | EmptyString => None
        end
      else None
  end.

(** [int(s)] for an ASCII text without surrounding blanks: an optional
    sign, then decimal digits with single underscores between them. *)
Definition int_literal (s : string) : option Z :=
  let '(sign, body) :=
    match s with
    | String "+" r => (1, r)
    | String "-" r => (-1, r)
    | _ => (1, s)
    end in
  match body with
  | String c _ => if is_digit c then Z.mul sign <$> int_groups 0 body else None
  | EmptyString => None
  end.

(** [os.path.join(a, b)] on a POSIX system. *)
Definition path_join (a b : string) : string :=
  if startswith "/" b then b
  else if is_empty a then b
  else match last_char a with
       | Some "/"%char => a +:+ b
       | _ => a +:+ "/" +:+ b
       end.

(** [sep.join(xs)] *)
Fixpoint join (sep : string) (xs : list string) : string :=
  match xs with
  | [] => EmptyString
  | [x] => x
  | x :: rest => x +:+ sep +:+ join sep rest
  end.

(** Truthiness of an optional string: [None] and [''] are falsy. *)
Definition truthy (o : option string) : bool :=
  match o with
  | Some s => negb (is_empty s)
  | None => false
  end.

(** [str.format] of a value that is a string or [None]. *)
Definition fmt (o : option string) : string :=
  match o with Some s => s | None => "None" end.

End PyStr.

(** ** Python values and exceptions *)

(** The objects [json.load] builds. [PNum] stands for both [int] and
    [float]: no path of the program looks inside a number. *)
Inductive pyval : Type :=
| PNone
| PBool (b : bool)
| PNum (n : Z)
| PStr (s : string)
| PList (l : list pyval)
| PDict (m : gmap string pyval).

Inductive value_error : Type :=
| NotEnoughValues        (* unpacking fewer than four path segments *)
| EmbeddedNull           (* a NUL byte in an environment name or value *)
| IllegalEnvName         (* an empty name, or one holding '=' *)
| InvalidLiteral.        (* int() of something that is not a number *)

Inductive assertion : Type :=
| UnsupportedSpark       (* download_jar: spark version not supported *)
| InvalidMode            (* Runner.__init__: mode not legal for the conf type *)
| MoreThanOneFound.      (* Runner.run: "More than one found, please kill them all" *)

Inductive exn : Type :=
| ValueError (why : value_error)
| KeyError (key : string)
| IndexError
| AttributeError
| TypeError
| AssertionError (what : assertion)
| JSONDecodeError
| ParseError
| FileNotFoundError (path : string)
| CalledProcessError (cmd : string)
| SystemExit.

Inductive outcome (A : Type) : Type :=
| Returns (a : A)
| Raises (e : exn).
Arguments Returns {A} a.
Arguments Raises {A} e.

#[global] Instance outcome_ret : MRet outcome := fun A a => Returns a.
#[global] Instance outcome_bind : MBind outcome := fun A B f o =>
  match o with
  | Returns a => f a
  | Raises e => Raises e
  end.

Definition raised {A} (o : outcome A) : Prop := ∃ e, o = Raises e.
Definition returned {A} (o : outcome A) : Prop := ∃ a, o = Returns a.

Module PyObj.

(** [d[k]] for a [dict] held in a Rocq map. *)
Definition getitem {A} (d : gmap string A) (k : string) : outcome A :=
  match d !! k with
  | Some v => Returns v
  | None => Raises (KeyError k)
  end.

(** [v[k]] with a string key: a [dict] is looked up; [None], numbers and
    booleans are not subscriptable, lists and strings refuse a string
    index. *)
Definition subscript (v : pyval) (k : string) : outcome pyval :=
  match v with
  | PDict d => getitem d k
  | _ => Raises TypeError
  end.

(** [v.get(k, {})] and [v.get(k)]: only a [dict] has [get]. *)
Definition get_or (dflt : pyval) (v : pyval) (k : string) : outcome pyval :=
  match v with
  | PDict d => Returns (default dflt (d !! k))
  | _ => Raises AttributeError
  end.

Definition empty_dict : pyval := PDict ∅.

(** [v.strip()]: only a [str] has it. *)
Definition strip (v : pyval) : outcome string :=
  match v with
  | PStr s => Returns (PyStr.strip s)
  | _ => Raises AttributeError
  end.

(** An optional string as a Python object. *)
Definition of_opt (o : option string) : pyval :=
  match o with Some s => PStr s | None => PNone end.

End PyObj.

(** ** The world the launcher runs in *)

Inductive event : Type :=
| Exec (cmd : string)        (* a subprocess was launched with this command line *)
| Sleep (secs : Z).          (* time.sleep *)

(** [os.environ] and the effects so far, most recent first. *)
Record world : Type := World {
  environ : gmap string string;
  trace : list event
}.

(** What the program finds outside itself. [json_loads] is the decoder of
    the [json] module ([None]: the text is not JSON); [files] are the regular
    files on disk with their text; [sh w cmd] is the standard output of the
    subprocess [cmd] launched in world [w] ([None]: it exited with a
    non-zero status); [py_str] is [str()] of an object that is
    not a string; [select_versions xml tag] parses a [maven-metadata.xml]
    and keeps, in document order, the versions that match the pattern built
    from the release tag ([None]: the text is not XML); [today] is the
    date of the run as [%Y-%m-%d]. *)
Record Host : Type := {
  json_loads : string → option pyval;
  files : gmap string string;
  sh : world → string → option string;
  py_str : pyval → string;
  select_versions : string → option string → option (list string);
  today : string
}.

(** The namespace [argparse] returns. *)
Record Args : Type := {
  repo : option string;
  conf : option string;
  mode : option string;
  app_name : option string;
  chronon_jar : option string;
  online_jar : option string;
  online_class : option string;
  ds : option string;
  version : option string;
  spark_version : option string;
  spark_submit_path : option string;
  spark_streaming_submit_path : option string;
  online_jar_fetch : option string;
  sub_help : bool;
  conf_type : option string;
  release_tag : option string;
  list_apps : option string;
  online_args : option string;
  args : option string
}.

(** The attributes of a [Runner]. [context] and [team] exist only when a
    conf was given. *)
Record Runner : Type := {
  r_repo : option string;
  r_conf : option string;
  r_sub_help : bool;
  r_mode : option string;
  r_online_jar : option string;
  r_context : option string;
  r_conf_type : option string;
  r_team : option string;
  r_ds : option string;
  r_jar_path : string;
  r_args : string;
  r_online_class : option string;
  r_app_name : option string;
  r_spark_submit : option string;
  r_list_apps_cmd : option string
}.

(** State and exceptions: a computation maps the world to the world it
    leaves behind and to what it returned or raised. *)
Definition M (A : Type) : Type := world → world * outcome A.

#[global] Instance M_ret : MRet M := fun A a w => (w, Returns a).
#[global] Instance M_bind : MBind M := fun A B f m w =>
  match m w with
  | (w', Returns a) => f a w'
  | (w', Raises e) => (w', Raises e)
  end.

Definition lift {A} (o : outcome A) : M A := fun w => (w, o).
Definition raise {A} (e : exn) : M A := fun w => (w, Raises e).

(** [try: body except Exception as e: handler(e)]. [SystemExit] is no
    [Exception] and passes through. *)
Definition try_except {A} (body : M A) (handler : exn → M A) : M A := fun w =>
  match body w with
  | (w', Returns a) => (w', Returns a)
  | (w', Raises SystemExit) => (w', Raises SystemExit)
  | (w', Raises e) => handler e w'
  end.

(** [for x in xs: body(x)] *)
Fixpoint for_each {A} (xs : list A) (body : A → M unit) : M unit :=
  match xs with
  | [] => mret tt
  | x :: rest => body x ≫= λ _, for_each rest body
  end.

Definition NUL : ascii := "000"%char.

(** [os.environ[key] = value]: the value must be a [str]; neither text may
    hold a NUL byte; the name is not empty and holds no ['=']. *)
Definition environ_set (key : string) (value : pyval) : M unit := fun w =>
  match value with
  | PStr s =>
      if PyStr.has_char NUL key || PyStr.has_char NUL s
      then (w, Raises (ValueError EmbeddedNull))
      else if PyStr.is_empty key || PyStr.has_char "="%char key
      then (w, Raises (ValueError IllegalEnvName))
      else (World (<[key := s]> (environ w)) (trace w), Returns tt)
  | _ => (w, Raises TypeError)
  end.

(** [time.sleep(secs)], for a length that is not negative. *)
Definition sleep (secs : Z) : M unit := fun w =>
  (World (environ w) (Sleep secs :: trace w), Returns tt).

(** ** Constants of the module *)

Definition ONLINE_MODES : list string :=
  ["streaming"; "metadata-upload"; "fetch"; "local-streaming"].

Definition SPARK_MODES : list string :=
  ["backfill"; "upload"; "streaming"; "consistency-metrics-compute";
   "analyze"; "stats-summary"; "log-flattener"; "metadata-export"; "label-join"].

Definition SUPPORTED_SPARK : list string := ["2.4.0"; "3.1.1"; "3.2.1"].

Definition SCALA_VERSION_FOR_SPARK : gmap string string :=
  list_to_map [("2.4.0", "2.11"); ("3.1.1", "2.12"); ("3.2.1", "2.13")].

(** The four values a mode template is formatted with. *)
Record fmt_args : Type := {
  f_conf_path : string;
  f_ds : string;
  f_online_jar : string;
  f_online_class : string
}.

Definition ONLINE_ARGS (f : fmt_args) : string :=
  "--online-jar=" +:+ f_online_jar f +:+ " --online-class=" +:+ f_online_class f +:+ " ".
Definition OFFLINE_ARGS (f : fmt_args) : string :=
  "--conf-path=" +:+ f_conf_path f +:+ " --end-date=" +:+ f_ds f +:+ " ".
Definition ONLINE_WRITE_ARGS (f : fmt_args) : string :=
  "--conf-path=" +:+ f_conf_path f +:+ " " +:+ ONLINE_ARGS f.
Definition ONLINE_OFFLINE_WRITE_ARGS (f : fmt_args) : string :=
  OFFLINE_ARGS f +:+ ONLINE_ARGS f.

Definition MODE_ARGS : gmap string (fmt_args → string) :=
  list_to_map [
    ("backfill", OFFLINE_ARGS);
    ("upload", OFFLINE_ARGS);
    ("stats-summary", OFFLINE_ARGS);
    ("analyze", OFFLINE_ARGS);
    ("streaming", ONLINE_WRITE_ARGS);
    ("metadata-upload", ONLINE_WRITE_ARGS);
    ("fetch", ONLINE_ARGS);
    ("consistency-metrics-compute", OFFLINE_ARGS);
    ("local-streaming", λ f, ONLINE_WRITE_ARGS f +:+ " -d");
    ("log-flattener", OFFLINE_ARGS);
    ("metadata-export", OFFLINE_ARGS);
    ("label-join", OFFLINE_ARGS)
  ].

Definition ROUTES : gmap string (gmap string string) :=
  list_to_map [
    ("group_bys", list_to_map [
       ("upload", "group-by-upload");
       ("backfill", "group-by-backfill");
       ("streaming", "group-by-streaming");
       ("local-streaming", "group-by-streaming");
       ("fetch", "fetch");
       ("analyze", "analyze");
       ("metadata-export", "metadata-export")]);
    ("joins", list_to_map [
       ("backfill", "join");
       ("metadata-upload", "metadata-upload");
       ("fetch", "fetch");
       ("consistency-metrics-compute", "consistency-metrics-compute");
       ("stats-summary", "stats-summary");
       ("analyze", "analyze");
       ("log-flattener", "log-flattener");
       ("metadata-export", "metadata-export");
       ("label-join", "label-join")]);
    ("staging_queries", list_to_map [
       ("backfill", "staging-query-backfill");
       ("metadata-export", "metadata-export")])
  ].

(** [APP_NAME_TEMPLATE.format(conf_type=.., mode=.., context=.., name=..)] *)
Definition APP_NAME_TEMPLATE (conf_type mode context name : string) : string :=
  "chronon_" +:+ conf_type +:+ "_" +:+ mode +:+ "_" +:+ context +:+ "_" +:+ name.

(** [ROUTES[conf_type][mode]], the lookup of [Runner.run]. *)
Definition route (conf_type mode : string) : outcome string :=
  modes ← PyObj.getitem ROUTES conf_type;
  PyObj.getitem modes mode.

(** [context, conf_type, team, _ = conf.split('/')[-4:]]: the slice keeps
    the last four segments (all of them when there are fewer), and the
    unpacking wants exactly four. *)
Definition split_conf (conf : string) : outcome (string * string * string) :=
  let segments := PyStr.split_on "/"%char conf in
  match drop (List.length segments - 4)%nat segments with
  | [context; conf_type; team; _] => Returns (context, conf_type, team)
  | _ => Raises (ValueError NotEnoughValues)
  end.

(** The dictionary [environment] of [set_runtime_env]: five named layers.
    The four layers read from JSON hold whatever object the document has at
    that place; [cli_args] is built by the program itself. *)
Record layers : Type := Layers {
  common_env : pyval;
  conf_env : pyval;
  default_env : pyval;
  team_env : pyval;
  cli_args : gmap string pyval
}.

Definition no_layers : layers :=
  Layers PyObj.empty_dict PyObj.empty_dict PyObj.empty_dict PyObj.empty_dict ∅.

(** [order = ['conf_env', 'team_env', 'default_env', 'common_env', 'cli_args']],
    each name already looked up in [environment]. *)
Definition order (environment : layers) : list pyval :=
  [conf_env environment; team_env environment; default_env environment;
   common_env environment; PDict (cli_args environment)].

(** [key in layer] is defined for a [dict], a [list] and a [str] and raises
    [TypeError] for anything else. *)
Definition supports_in (layer : pyval) : bool :=
  match layer with
  | PStr _ | PList _ | PDict _ => true
  | _ => false
  end.

(** The body of the merge loop:
    [if key not in os.environ and value is not None: os.environ[key] = value]. *)
Definition set_if_absent (key : string) (value : pyval) : M unit := fun w =>
  match environ w !! key, value with
  | Some _, _ => (w, Returns tt)
  | None, PNone => (w, Returns tt)
  | None, _ => environ_set key value w
  end.

(** [for key, value in layer.items(): ...]: only a [dict] has [items]. The
    entries of a dictionary have distinct keys, so the environment a loop
    that returns leaves behind does not depend on the order of the visit. *)
Definition apply_layer (layer : pyval) : M unit :=
  match layer with
  | PDict d => map_fold (λ key value (acc : M unit), acc ≫= λ _, set_if_absent key value) (mret tt) d
  | _ => raise AttributeError
  end.

(** The first loop of [set_runtime_env] only prints, but evaluating
    [key in environment[set_key]] for every layer raises when a layer is
    not a container; the loop body runs only when [os.environ] is not
    empty. *)
Definition print_found (environment : layers) : M unit := fun w =>
  if decide (environ w = ∅) then (w, Returns tt)
  else if forallb supports_in (order environment) then (w, Returns tt)
  else (w, Raises TypeError).

(** [re.search("(content-length:\\s)(\\d+)", s)] with the pattern anchored
    at the start of [s]: the text matched ([group()]), when there is one.
    The digits are matched greedily. The classes are those of ASCII text;
    beyond ASCII a [str] pattern also takes the white space and the decimal
    digits of Unicode, which the statements exclude. *)
Definition match_content_length (s : string) : option string :=
  rest ← PyStr.strip_prefix "content-length:" s;
  match rest with
  | String c r =>
      if PyStr.is_space c then
        let '(digits, _) := PyStr.span_digits r in
        if PyStr.is_empty digits then None
        else Some ("content-length:" +:+ String c digits)
      else None
  | EmptyString => None
  end.

(** [re.search] tries every start position from the left. *)
Fixpoint search_content_length (s : string) : option string :=
  match match_content_length s with
  | Some m => Some m
  | None =>
      match s with
      | EmptyString => None
      | String _ r => search_content_length r
      end
  end.

(** [int(text)] for a field that [split] cut out (no blank around it),
    raising [ValueError] on anything but an integer literal. *)
Definition py_int (text : string) : outcome Z :=
  match PyStr.int_literal text with
  | Some n => Returns n
  | None => Raises (ValueError InvalidLiteral)
  end.

(** [xs[0]] and [xs[-1]] *)
Definition first_item {A} (xs : list A) : outcome A :=
  match xs with
  | x :: _ => Returns x
  | [] => Raises IndexError
  end.

Definition last_item {A} (xs : list A) : outcome A :=
  match last xs with
  | Some x => Returns x
  | None => Raises IndexError
  end.

(** [os.environ.get(key, None)] *)
Definition environ_get (key : string) : M (option string) := fun w =>
  (w, Returns (environ w !! key)).

(** The loop of [retry_decorator]'s [wrapped]. [left] is the number of
    iterations the test [attempt <= retries] still allows, that is
    [retries + 1 - attempt]; every failure adds one to [attempt]. When the
    loop is left, [func] is called once more, outside any [try]. *)
Fixpoint retry_loop {A} (func : M A) (backoff attempt : Z) (left : nat) : M A :=
  match left with
  | O => func
  | S left' =>
      try_except func (λ _,
        let attempt := attempt + 1 in
        let sleep_time := attempt * backoff in
        sleep sleep_time ≫= λ _,
        retry_loop func backoff attempt left')
  end.

(** [retry_decorator(retries, backoff)(func)] *)
Definition retry_decorator {A} (retries backoff : Z) (func : M A) : M A :=
  retry_loop func backoff 0 (Z.to_nat (retries + 1)).

(** Line 193: [teams_json.get('default', {}).get("common_env", {})] *)
Definition extract_common_env (teams_json : pyval) : outcome pyval :=
  dflt ← PyObj.get_or PyObj.empty_dict teams_json "default";
  PyObj.get_or PyObj.empty_dict dflt "common_env".

(** Line 206: [conf_json.get('metaData').get('modeToEnvMap', {}).get(args.mode, {})].
    The first [get] has no default, so it yields [None] for a missing key. *)
Definition extract_conf_env (conf_json : pyval) (mode_name : string) : outcome pyval :=
  meta ← PyObj.get_or PNone conf_json "metaData";
  mode_to_env ← PyObj.get_or PyObj.empty_dict meta "modeToEnvMap";
  PyObj.get_or PyObj.empty_dict mode_to_env mode_name.

(** Line 207: [teams_json[team].get(context, {}).get(args.mode, {})] *)
Definition extract_team_env (teams_json : pyval) (team context mode_name : string)
    : outcome pyval :=
  team_doc ← PyObj.subscript teams_json team;
  team_ctx ← PyObj.get_or PyObj.empty_dict team_doc context;
  PyObj.get_or PyObj.empty_dict team_ctx mode_name.

(** Line 208: [teams_json.get('default', {}).get(context, {}).get(args.mode, {})] *)
Definition extract_default_env (teams_json : pyval) (context mode_name : string)
    : outcome pyval :=
  dflt ← PyObj.get_or PyObj.empty_dict teams_json "default";
  dflt_ctx ← PyObj.get_or PyObj.empty_dict dflt context;
  PyObj.get_or PyObj.empty_dict dflt_ctx mode_name.

(** Lines 109-110: the remote size read off the output of [curl -sI]. *)
Definition remote_size_of (content_output : string) : outcome Z :=
  match search_content_length (PyStr.lower content_output) with
  | None => Raises AttributeError          (* None.group() *)
  | Some group => last_item (PyStr.split_ws group) ≫= py_int
  end.

(** Line 111: the local size read off the output of [wc -c], which is
    [bytes]. *)
Definition local_size_of (wc : string) : outcome Z :=
  first_item (PyStr.bsplit_ws wc) ≫= py_int.

(** The three command lines of [download_only_once]: the HEAD that asks
    for the headers of [url], the byte count of [path], and the GET that
    fetches [url] into [path]. *)
Definition curl_head (url : string) : string := "curl -sI " +:+ url.

Definition wc_bytes (path : string) : string := "wc -c " +:+ path.

Definition curl_get (url path : string) : string :=
  "curl " +:+ url +:+ " -o " +:+ path +:+ " --connect-timeout 10".

(** The command lines and the pauses in a list of events. *)
Definition commands (events : list event) : list string :=
  omap (λ e, match e with Exec cmd => Some cmd | Sleep _ => None end) events.

Definition pauses (events : list event) : list Z :=
  omap (λ e, match e with Sleep n => Some n | Exec _ => None end) events.

(** The events of [w'] that were not yet in [w], most recent first. *)
Definition events_since (w w' : world) : list event :=
  take (List.length (trace w') - List.length (trace w))%nat (trace w').

Section Launcher.

Context (host : Host).

(** [os.path.exists(path)] *)
Definition path_exists (path : string) : bool :=
  bool_decide (is_Some (files host !! path)).

(** [with open(path, 'r') as f: json.load(f)] *)
Definition json_load (path : string) : outcome pyval :=
  match files host !! path with
  | None => Raises (FileNotFoundError path)
  | Some text =>
      match json_loads host text with
      | Some doc => Returns doc
      | None => Raises JSONDecodeError
      end
  end.

(** A value substituted into a [str.format] template. *)
Definition format_value (v : pyval) : string :=
  match v with
  | PStr s => s
  | _ => py_str host v
  end.

(** Lines 189-193: the teams document and its [default.common_env]. *)
Definition load_teams (teams_file : string) : outcome (pyval * pyval) :=
  teams_json ← json_load teams_file;
  common ← extract_common_env teams_json;
  Returns (teams_json, common).

(** Lines 181-223 of [set_runtime_env]: reading the documents and
    building [environment]. Nothing here touches [os.environ]. *)
Definition load_layers (a : Args) : outcome layers :=
  environment ←
    (match repo a with
     | Some repo_dir =>
         if PyStr.is_empty repo_dir then Returns no_layers else
         let teams_file := PyStr.path_join repo_dir "teams.json" in
         if path_exists teams_file then
           '(teams_json, common) ← load_teams teams_file;
           match conf a, mode a with
           | Some conf_rel, Some mode_name =>
               if PyStr.is_empty conf_rel || PyStr.is_empty mode_name
               then Returns (Layers common PyObj.empty_dict PyObj.empty_dict PyObj.empty_dict ∅)
               else
                 '(context, conf_type, team) ← split_conf conf_rel;
                 let conf_path := PyStr.path_join repo_dir conf_rel in
                 conf_json ← json_load conf_path;
                 conf_layer ← extract_conf_env conf_json mode_name;
                 team_layer ← extract_team_env teams_json team context mode_name;
                 default_layer ← extract_default_env teams_json context mode_name;
                 (* conf_json['metaData']['name'] *)
                 meta ← PyObj.subscript conf_json "metaData";
                 name ← PyObj.subscript meta "name";
                 Returns (Layers common conf_layer default_layer team_layer
                            (<["CHRONON_CONF_PATH" := PStr conf_path]>
                               (<["APP_NAME" := PStr (APP_NAME_TEMPLATE conf_type mode_name
                                                        context (format_value name))]> ∅)))
           | _, _ => Returns (Layers common PyObj.empty_dict PyObj.empty_dict PyObj.empty_dict ∅)
           end
         else Returns no_layers
     | None => Returns no_layers
     end);
  let cli :=
    if PyStr.truthy (app_name a)
    then <["APP_NAME" := PyObj.of_opt (app_name a)]> (cli_args environment)
    else if decide (mode a = Some "metadata-export")
         then <["APP_NAME" := PStr "chronon_metadata_export"]> (cli_args environment)
         else cli_args environment in
  let cli := <["CHRONON_DRIVER_JAR" := PyObj.of_opt (chronon_jar a)]> cli in
  let cli := <["CHRONON_ONLINE_JAR" := PyObj.of_opt (online_jar a)]> cli in
  let cli := <["CHRONON_ONLINE_CLASS" := PyObj.of_opt (online_class a)]> cli in
  Returns (Layers (common_env environment) (conf_env environment)
             (default_env environment) (team_env environment) cli).

(** Lines 224-233: the layers are visited in [order]; a variable is set
    only when [os.environ] does not hold it yet. *)
Definition apply_layers (environment : layers) : M unit :=
  print_found environment ≫= λ _,
  for_each (order environment) apply_layer.

Definition set_runtime_env (a : Args) : M unit :=
  lift (load_layers a) ≫= apply_layers.

(** [subprocess.check_call(cmd.split(), bufsize=0)] *)
Definition check_call (cmd : string) : M unit := fun w =>
  let w' := World (environ w) (Exec cmd :: trace w) in
  match sh host w cmd with
  | Some _ => (w', Returns tt)
  | None => (w', Raises (CalledProcessError cmd))
  end.

(** [subprocess.check_output(cmd.split(), bufsize=0).strip()] *)
Definition check_output (cmd : string) : M string := fun w =>
  let w' := World (environ w) (Exec cmd :: trace w) in
  match sh host w cmd with
  | Some out => (w', Returns (PyStr.bstrip out))
  | None => (w', Raises (CalledProcessError cmd))
  end.


Definition download_only_once (url path : string) : M unit :=
  let path := PyStr.strip path in
  if path_exists path then
    content_output ← check_output (curl_head url);
    remote_size ← lift (remote_size_of content_output);
    wc ← check_output (wc_bytes path);
    local_size ← lift (local_size_of wc);
    let should_download := negb (bool_decide (local_size = remote_size)) in
    if should_download then check_call (curl_get url path) else mret tt
  else check_call (curl_get url path).

(** The function [download_jar] before it is decorated. *)
Definition download_jar_body (version : option string) (jar_type : string)
    (release_tag : option string) (spark_version : string) : M string :=
  if negb (bool_decide (spark_version ∈ SUPPORTED_SPARK))
  then raise (AssertionError UnsupportedSpark) else
  scala_version ← lift (PyObj.getitem SCALA_VERSION_FOR_SPARK spark_version);
  maven_url_prefix ← environ_get "CHRONON_MAVEN_MIRROR_PREFIX";
  let default_url_prefix :=
    "https://s01.oss.sonatype.org/service/local/repositories/public/content" in
  let url_prefix :=
    if PyStr.truthy maven_url_prefix then PyStr.fmt maven_url_prefix
    else default_url_prefix in
  let base_url :=
    url_prefix +:+ "/ai/chronon/spark_" +:+ jar_type +:+ "_" +:+ scala_version in
  jar_path ← environ_get "CHRONON_DRIVER_JAR";
  match jar_path with
  | Some jar_path => mret jar_path
  | None =>
      let version := if decide (version = Some "latest") then None else version in
      version ←
        (match version with
         | Some v => mret v
         | None =>
             metadata_content ← check_output ("curl -s " +:+ base_url +:+ "/maven-metadata.xml");
             match select_versions host metadata_content release_tag with
             | None => raise ParseError
             | Some versions => lift (last_item versions)
             end
         end);
      let jar_url :=
        base_url +:+ "/" +:+ version +:+ "/spark_" +:+ jar_type +:+ "_" +:+ scala_version
          +:+ "-" +:+ version +:+ "-assembly.jar" in
      jar_name ← lift (last_item (PyStr.split_on "/"%char jar_url));
      let jar_path := PyStr.path_join "/tmp" jar_name in
      download_only_once jar_url jar_path ≫= λ _,
      mret jar_path
  end.

(** [@retry_decorator(retries=3, backoff=50) def download_jar(...)] *)
Definition download_jar (version : option string) (jar_type : string)
    (release_tag : option string) (spark_version : string) : M string :=
  retry_decorator 3 50 (download_jar_body version jar_type release_tag spark_version).

(** *** The class [Runner] *)

(** One line of the running-apps listing: [json.loads] of the stripped
    line, then [app_json['app_name'].strip()]. Whatever is raised is
    caught by the caller, which skips the line. *)
Definition parse_app (line : string) : outcome (string * pyval) :=
  app_json ←
    (match json_loads host (PyStr.strip line) with
     | Some v => Returns v
     | None => Raises JSONDecodeError
     end);
  name ← PyObj.subscript app_json "app_name" ≫= PyObj.strip;
  Returns (name, app_json).

(** The body of [for app in running_apps], with its [try]/[except]. *)
Definition add_app (running_app_map : gmap string (list pyval)) (line : string)
    : gmap string (list pyval) :=
  match parse_app line with
  | Returns (name, app_json) =>
      <[name := (default [] (running_app_map !! name) ++ [app_json])%list]> running_app_map
  | Raises _ => running_app_map
  end.

(** [running_app_map.get(self.app_name, [])] after the loop over the
    lines of the listing. *)
Definition filtered_apps (listing : string) (name : option string) : list pyval :=
  let running_apps := PyStr.split_on "010"%char listing in
  let running_app_map := foldl add_app ∅ running_apps in
  match name with
  | Some n => default [] (running_app_map !! n)
  | None => []
  end.

(** [Runner.__init__(self, args, jar_path)] *)
Definition Runner_init (a : Args) (jar_path : string) : M Runner :=
  let valid_jar :=
    match online_jar a with
    | Some j => negb (PyStr.is_empty j) && path_exists j
    | None => false
    end in
  let is_online :=
    match mode a with
    | Some m => bool_decide (m ∈ ONLINE_MODES)
    | None => false
    end in
  jar ←
    (if is_online && negb (sub_help a) && negb valid_jar then
       fetched ← check_output (PyStr.fmt (online_jar_fetch a));
       environ_set "CHRONON_ONLINE_JAR" (PStr fetched) ≫= λ _,
       mret (Some fetched)
     else mret (online_jar a));
  '(context, ctype, team) ←
    (if PyStr.truthy (conf a) then
       '(context, ctype, team) ← lift (split_conf (PyStr.fmt (conf a)));
       possible_modes ← lift (PyObj.getitem ROUTES ctype);
       if match mode a with
          | Some m => bool_decide (is_Some (possible_modes !! m))
          | None => false
          end
       then mret (Some context, Some ctype, Some team)
       else raise (AssertionError InvalidMode)
     else mret (None, conf_type a, None));
  mret {|
    r_repo := repo a;
    r_conf := conf a;
    r_sub_help := sub_help a;
    r_mode := mode a;
    r_online_jar := jar;
    r_context := context;
    r_conf_type := ctype;
    r_team := team;
    r_ds := ds a;
    r_jar_path := jar_path;
    r_args := if PyStr.truthy (args a) then PyStr.fmt (args a) else "";
    r_online_class := online_class a;
    r_app_name := app_name a;
    r_spark_submit :=
      if decide (mode a = Some "streaming") then spark_streaming_submit_path a
      else spark_submit_path a;
    r_list_apps_cmd := list_apps a
  |}.

(** The command that submits the job through the launcher script. *)
Definition submit_command (self : Runner) (subcommand final_args : string) : string :=
  "bash " +:+ PyStr.fmt (r_spark_submit self) +:+ " --class ai.chronon.spark.Driver "
    +:+ r_jar_path self +:+ " " +:+ subcommand +:+ " " +:+ final_args.

(** The command that runs the driver jar directly. *)
Definition java_command (self : Runner) (subcommand final_args : string) : string :=
  "java -cp " +:+ r_jar_path self +:+ " ai.chronon.spark.Driver " +:+ subcommand +:+ " "
    +:+ (if r_sub_help self then "--help" else final_args).

(** [Runner.run(self)] *)
Definition Runner_run (self : Runner) : M unit :=
  let mode_key := PyStr.fmt (r_mode self) in
  template ←
    lift (match r_mode self with
          | Some m => PyObj.getitem MODE_ARGS m
          | None => Raises (KeyError "None")
          end);
  let base_args :=
    template {| f_conf_path := PyStr.fmt (r_conf self);
                f_ds := PyStr.fmt (r_ds self);
                f_online_jar := PyStr.fmt (r_online_jar self);
                f_online_class := PyStr.fmt (r_online_class self) |} in
  let final_args := base_args +:+ " " +:+ r_args self in
  subcommand ←
    lift (match r_conf_type self with
          | Some ctype => route ctype mode_key
          | None => Raises (KeyError "None")
          end);
  if r_sub_help self || negb (bool_decide (mode_key ∈ SPARK_MODES)) then
    check_call (java_command self subcommand final_args)
  else
    already_running ←
      (if PyStr.contains mode_key "streaming" then     (* self.mode in ('streaming') *)
         listing ← check_output (PyStr.fmt (r_list_apps_cmd self));
         let filtered := filtered_apps listing (r_app_name self) in
         if (0 <? List.length filtered)%nat then
           if (List.length filtered =? 1)%nat then mret true
           else raise (AssertionError MoreThanOneFound)
         else mret false
       else mret false);
    if (already_running : bool) then mret tt
    else check_call (submit_command self subcommand final_args).

(** *** The script body *)

(** [x] when the option was given on the command line, else its default. *)
Definition or_default {A} (x dflt : option A) : option A :=
  match x with
  | Some _ => x
  | None => dflt
  end.

(** [parser.parse_known_args()]: [cli] holds the options given on the
    command line. The defaults are computed when the parser is built,
    from the environment [env] the script starts in; a mode outside
    [MODE_ARGS] makes [argparse] exit. *)
Definition parse_known_args (env : gmap string string) (cli : Args) : outcome Args :=
  let chronon_repo_path := default "." (env !! "CHRONON_REPO_PATH") in
  parsed_mode ←
    (match mode cli with
     | None => Returns "backfill"
     | Some m => if bool_decide (is_Some (MODE_ARGS !! m)) then Returns m else Raises SystemExit
     end);
  Returns {|
    repo := or_default (repo cli) (Some chronon_repo_path);
    conf := conf cli;
    mode := Some parsed_mode;
    app_name := or_default (app_name cli) (env !! "APP_NAME");
    chronon_jar := or_default (chronon_jar cli) (env !! "CHRONON_DRIVER_JAR");
    online_jar := or_default (online_jar cli) (env !! "CHRONON_ONLINE_JAR");
    online_class := or_default (online_class cli) (env !! "CHRONON_ONLINE_CLASS");
    ds := or_default (ds cli) (Some (today host));
    version := or_default (version cli) (env !! "VERSION");
    spark_version :=
      or_default (spark_version cli) (Some (default "2.4.0" (env !! "SPARK_VERSION")));
    spark_submit_path :=
      or_default (spark_submit_path cli)
        (Some (PyStr.path_join chronon_repo_path "scripts/spark_submit.sh"));
    spark_streaming_submit_path :=
      or_default (spark_streaming_submit_path cli)
        (Some (PyStr.path_join chronon_repo_path "scripts/spark_streaming.sh"));
    online_jar_fetch :=
      or_default (online_jar_fetch cli)
        (Some (PyStr.path_join chronon_repo_path "scripts/fetch_online_jar.py"));
    sub_help := sub_help cli;
    conf_type := or_default (conf_type cli) (Some "group_bys");
    release_tag := release_tag cli;
    list_apps :=
      or_default (list_apps cli)
        (Some ("python3 " +:+ PyStr.path_join chronon_repo_path "scripts/yarn_list.py"));
    online_args := or_default (online_args cli) (Some (default "" (env !! "CHRONON_ONLINE_ARGS")));
    args := args cli
  |}.

(** [args.args = ...] *)
Definition with_args (a : Args) (text : string) : Args := {|
  repo := repo a; conf := conf a; mode := mode a; app_name := app_name a;
  chronon_jar := chronon_jar a; online_jar := online_jar a;
  online_class := online_class a; ds := ds a; version := version a;
  spark_version := spark_version a; spark_submit_path := spark_submit_path a;
  spark_streaming_submit_path := spark_streaming_submit_path a;
  online_jar_fetch := online_jar_fetch a; sub_help := sub_help a;
  conf_type := conf_type a; release_tag := release_tag a;
  list_apps := list_apps a; online_args := online_args a;
  args := Some text
|}.

(** The block under [if __name__ == "__main__"]. Both calls of
    [parse_known_args] use the one parser, whose defaults were fixed
    before [set_runtime_env] ran, so they return the same namespace. *)
Definition main (cli : Args) (unknown_args : list string) : M unit := fun w0 =>
  (pre_parse_args ← lift (parse_known_args (environ w0) cli);
   set_runtime_env pre_parse_args ≫= λ _,
   let a := pre_parse_args in
   let jar_type :=
     if decide (mode a = Some "local-streaming") then "embedded" else "uber" in
   let extra_args :=
     if bool_decide (PyStr.fmt (mode a) ∈ ONLINE_MODES)
     then " " +:+ PyStr.fmt (online_args a) else "" in
   let a := with_args a (PyStr.join " " unknown_args +:+ extra_args) in
   jar_path ←
     (if PyStr.truthy (chronon_jar a) then mret (PyStr.fmt (chronon_jar a))
      else download_jar (version a) jar_type (release_tag a) (PyStr.fmt (spark_version a)));
   self ← Runner_init a jar_path;
   Runner_run self) w0.

End Launcher.

(** ** Sample repositories

    Concrete hosts on which the model is run. A file's text is a tag, and
    the decoder of the host maps the tag to the object the JSON text stands
    for. *)

Module Fixture.

Definition dict (items : list (string * pyval)) : pyval := PDict (list_to_map items).

Definition blank_args : Args := {|
  repo := None; conf := None; mode := None; app_name := None;
  chronon_jar := None; online_jar := None; online_class := None;
  ds := None; version := None; spark_version := None;
  spark_submit_path := None; spark_streaming_submit_path := None;
  online_jar_fetch := None; sub_help := false; conf_type := None;
  release_tag := None; list_apps := None; online_args := None; args := None
|}.

(** [--repo], [--conf], [--mode] and [--app-name] as given. *)
Definition args_for (r c m n : option string) : Args := {|
  repo := r; conf := c; mode := m; app_name := n;
  chronon_jar := None; online_jar := None; online_class := None;
  ds := None; version := None; spark_version := None;
  spark_submit_path := None; spark_streaming_submit_path := None;
  online_jar_fetch := None; sub_help := false; conf_type := None;
  release_tag := None; list_apps := None; online_args := None; args := None
|}.

(** A host given by its documents, its files and its shell. *)
Definition host_of (documents : gmap string pyval) (disk : gmap string string)
    (shell : world → string → option string) : Host := {|
  json_loads := λ text, documents !! text;
  files := disk;
  sh := shell;
  py_str := λ _, "<object>";
  select_versions := λ _ _, None;
  today := "2023-01-01"
|}.

Definition no_shell : world → string → option string := λ _ _, None.

Definition empty_world : world := World ∅ [].

(** The repository of the test suite: a teams document with a default
    scope and one team, and the conf of a join. *)
Definition teams_map : gmap string pyval :=
  list_to_map
    [("default",
      dict [("common_env",
             dict [("VERSION", PStr "latest"); ("EXECUTOR_MEMORY", PStr "1G")]);
            ("production",
             dict [("backfill",
                    dict [("EXECUTOR_CORES", PStr "1"); ("DRIVER_MEMORY", PStr "15G")])])]);
     ("sample_team",
      dict [("production",
             dict [("backfill", dict [("EXECUTOR_CORES", PStr "4")])])])].

Definition teams_doc : pyval := PDict teams_map.

Definition conf_doc : pyval :=
  dict [("metaData",
         dict [("name", PStr "sample_team.sample_join.v1");
               ("modeToEnvMap",
                dict [("backfill", dict [("EXECUTOR_MEMORY", PStr "9G")])])])].

Definition sample_conf : string := "production/joins/sample_team/sample_join.v1".

Definition sample_host : Host :=
  host_of (list_to_map [("<teams>", teams_doc); ("<conf>", conf_doc)])
          (list_to_map [("repo/teams.json", "<teams>");
                        ("repo/" +:+ sample_conf, "<conf>")])
          no_shell.

Definition sample_args : Args :=
  args_for (Some "repo") (Some sample_conf) (Some "backfill") None.

(** The layers read from the sample repository. *)
Definition sample_layers : layers :=
  match load_layers sample_host sample_args with
  | Returns environment => environment
  | Raises _ => no_layers
  end.

(** A shell that exports the executor memory before it starts the launcher. *)
Definition exporting_world : world := World {["EXECUTOR_MEMORY" := "64G"]} [].

(** The same repository without its [teams.json], and with a conf that
    has no [metaData]. *)
Definition bare_host : Host :=
  host_of (list_to_map [("<conf>", dict [("name", PStr "orphan")])])
          (list_to_map [("repo/" +:+ sample_conf, "<conf>")])
          no_shell.


(** A teams document whose common scope names the application. *)
Definition naming_host : Host :=
  host_of (list_to_map [("<teams>",
                         dict [("default",
                                dict [("common_env",
                                       dict [("APP_NAME", PStr "from_teams")])])])])
          (list_to_map [("repo/teams.json", "<teams>")])
          no_shell.

Definition naming_args : Args :=
  args_for (Some "repo") None (Some "backfill") (Some "mine").

(** A scheduler listing: each line is a tag for one JSON record. The
    record of [<foo~>] is named [foo] followed by a no-break space
    (U+00A0). *)
Definition app (name : string) : pyval :=
  dict [("app_name", PStr name); ("kind", PStr "streaming")].

Definition listing_documents : gmap string pyval :=
  list_to_map [("<foo>", app "foo"); ("<foo >", app "foo "); ("<bar>", app "bar");
               ("<foo~>", app ("foo" +:+ PyStr.of_bytes [194; 160]%nat));
               ("<list>", PList []); ("<anonymous>", dict [("kind", PStr "streaming")])].

Definition newline : string := String "010"%char EmptyString.

(** A host whose every command succeeds; the listing command prints
    [listing]. *)
Definition scheduler_host (listing : string) : Host :=
  host_of listing_documents ∅
          (λ _ cmd, if String.eqb cmd "list-apps" then Some listing else Some "").


(** A host with no network: every command fails. *)
Definition offline_host : Host := host_of ∅ ∅ no_shell.


(** A conf that gives the executor cores as a JSON number. *)
Definition numeric_host : Host :=
  host_of (list_to_map
             [("<teams>", dict [("sample_team", dict [])]);
              ("<conf>",
               dict [("metaData",
                      dict [("name", PStr "sample_team.sample_join.v1");
                            ("modeToEnvMap",
                             dict [("backfill", dict [("EXECUTOR_CORES", PNum 4)])])])])])
          (list_to_map [("repo/teams.json", "<teams>");
                        ("repo/" +:+ sample_conf, "<conf>")])
          no_shell.

Definition numeric_layers : layers :=
  match load_layers numeric_host sample_args with
  | Returns environment => environment
  | Raises _ => no_layers
  end.

(** A teams document whose common scope is a string. *)
Definition stringly_host : Host :=
  host_of (list_to_map [("<teams>", dict [("default", dict [("common_env", PStr "VERSION=latest")])])])
          (list_to_map [("repo/teams.json", "<teams>")])
          no_shell.

Definition stringly_layers : layers :=
  match load_layers stringly_host (args_for (Some "repo") None None None) with
  | Returns environment => environment
  | Raises _ => no_layers
  end.


(** An artifact store that lists [versions] and serves every request. *)
Definition store_host (versions : list string) : Host := {|
  json_loads := λ _, None;
  files := ∅;
  sh := λ _ _, Some "<xml>";
  py_str := λ _, "<object>";
  select_versions := λ _ _, Some versions;
  today := "2023-01-01"
|}.

(** A process whose environment names the driver jar. *)
Definition jar_world : world := World {["CHRONON_DRIVER_JAR" := "/opt/chronon/driver.jar"]} [].


(** A runner for a conf of one type in one mode, with or without
    [--sub-help], and with no application name. *)
Definition runner_for (ctype mode_name : string) (help : bool) : Runner := {|
  r_repo := Some "repo";
  r_conf := Some ("production/" +:+ ctype +:+ "/sample_team/sample.v1");
  r_sub_help := help;
  r_mode := Some mode_name;
  r_online_jar := Some "online.jar";
  r_context := Some "production";
  r_conf_type := Some ctype;
  r_team := Some "sample_team";
  r_ds := Some "2023-01-01";
  r_jar_path := "/tmp/driver.jar";
  r_args := "";
  r_online_class := Some "ai.chronon.Online";
  r_app_name := None;
  r_spark_submit := Some "spark_submit.sh";
  r_list_apps_cmd := Some "list-apps"
|}.


(** The namespace the parser returns for a command line, in an
    environment. *)
Definition parsed (host : Host) (env : gmap string string) (cli : Args) : Args :=
  match parse_known_args host env cli with
  | Returns a => a
  | Raises _ => blank_args
  end.



End Fixture.

(** ** Vocabulary of the statements *)

(** A computation keeps the environment when every variable that is set
    before it runs still has its value afterwards, whether the computation
    returns or raises. *)
Definition keeps_environ {A} (m : M A) : Prop :=
  ∀ w X v, environ w !! X = Some v → environ (m w).1 !! X = Some v.

(** What a layer holds for the variable [X]: only a dictionary defines
    variables. *)
Definition layer_lookup (layer : pyval) (X : string) : option pyval :=
  match layer with
  | PDict d => d !! X
  | _ => None
  end.

(** The string a dictionary layer would give to [X]: a null is skipped. *)
Definition layer_value (d : gmap string pyval) (X : string) : option string :=
  match d !! X with
  | Some (PStr s) => Some s
  | _ => None
  end.

(** The precedence rule in the words of the specification, where
    [common_env] overrides [conf_env]: a variable defined in these two layers
    only, and not in the process environment, ends with the [common_env]
    value. *)
Definition common_env_wins_as_stated : Prop :=
  ∀ (host : Host) (a : Args) (w w' : world) (environment : layers)
    (X v_conf v_common : string),
    load_layers host a = Returns environment →
    layer_lookup (conf_env environment) X = Some (PStr v_conf) →
    layer_lookup (common_env environment) X = Some (PStr v_common) →
    layer_lookup (team_env environment) X = None →
    layer_lookup (default_env environment) X = None →
    cli_args environment !! X = None →
    environ w !! X = None →
    set_runtime_env host a w = (w', Returns tt) →
    environ w' !! X = Some v_common.

(** The nested path [teams[team][context][mode]] is absent at some level. *)
Definition path_absent (teams : gmap string pyval) (team context mode_name : string) : Prop :=
  teams !! team = None ∨
  (∃ td, teams !! team = Some (PDict td) ∧ td !! context = None) ∨
  (∃ td cd, teams !! team = Some (PDict td) ∧ td !! context = Some (PDict cd) ∧
            cd !! mode_name = None).

(** The extraction of [team_env] in the words of the specification: an
    absent path gives the empty mapping at every level, the team included. *)
Definition team_env_total_as_stated : Prop :=
  ∀ (teams : gmap string pyval) (team context mode_name : string),
    path_absent teams team context mode_name →
    extract_team_env (PDict teams) team context mode_name = Returns PyObj.empty_dict.

(** The arguments name a repository, a conf and a mode (none of them empty). *)
Definition supplied (a : Args) (repo_dir conf_rel mode_name : string) : Prop :=
  repo a = Some repo_dir ∧ PyStr.is_empty repo_dir = false ∧
  conf a = Some conf_rel ∧ PyStr.is_empty conf_rel = false ∧
  mode a = Some mode_name ∧ PyStr.is_empty mode_name = false.


(** The string the five layers give to [X], in the order of the merge:
    the first layer that holds a string for it. *)
Definition resolved (dc dt dd dm cli : gmap string pyval) (X : string) : option string :=
  match layer_value dc X, layer_value dt X, layer_value dd X, layer_value dm X with
  | Some v, _, _, _ => Some v
  | None, Some v, _, _ => Some v
  | None, None, Some v, _ => Some v
  | None, None, None, Some v => Some v
  | None, None, None, None => layer_value cli X
  end.

(** The pauses of a retry loop whose every attempt fails, most recent
    first: after the failure that makes [attempt] become [k] the loop sleeps
    [k * backoff]. *)
Fixpoint backoffs (backoff attempt : Z) (left : nat) : list Z :=
  match left with
  | O => []
  | S left' => (backoffs backoff (attempt + 1) left' ++ [(attempt + 1) * backoff])%list
  end.


(** The record a listing line stands for, when the line counts for
    [name]: the line, white space stripped, is the JSON text of an object
    whose [app_name] is a string that, white space stripped, is [name]. *)
Definition matches (host : Host) (name : string) (line : string) : option pyval :=
  match json_loads host (PyStr.strip line) with
  | Some (PDict record) =>
      match record !! "app_name" with
      | Some (PStr written) =>
          if decide (PyStr.strip written = name) then Some (PDict record) else None
      | _ => None
      end
  | _ => None
  end.

(** The records of the listing that the code counts for [name], in the
    order of the listing. Without a name nothing matches. *)
Definition matching_apps (host : Host) (listing : string) (name : option string)
    : list pyval :=
  match name with
  | Some n => omap (matches host n) (PyStr.split_on "010"%char listing)
  | None => []
  end.





(** The world once the listing command has run. *)
Definition listed (self : Runner) (w : world) : world :=
  World (environ w) (Exec (PyStr.fmt (r_list_apps_cmd self)) :: trace w).


(** A computation keeps the trace when it launches no subprocess and
    never sleeps. *)
Definition keeps_trace {A} (m : M A) : Prop :=
  ∀ w, trace (m w).1 = trace w.

(** [os.environ[key] = value] goes through: the value is a string, neither
    text holds a NUL byte, the name is not empty and holds no ['=']. *)
Definition settable (key : string) (value : pyval) : bool :=
  match value with
  | PStr s =>
      negb (PyStr.has_char NUL key || PyStr.has_char NUL s)
      && negb (PyStr.is_empty key || PyStr.has_char "="%char key)
  | _ => false
  end.

(** The five options [set_runtime_env] reads besides [repo] and [conf]. *)
Definition same_cli_options (a a' : Args) : Prop :=
  app_name a = app_name a' ∧ mode a = mode a' ∧ chronon_jar a = chronon_jar a' ∧
  online_jar a = online_jar a' ∧ online_class a = online_class a'.

(** A path segment: a text without ['/']. *)
Definition slash_free (s : string) : Prop := PyStr.has_char "/"%char s = false.



(** The URL and the local path of the jar of a version. *)
Definition jar_url_of (url_prefix jar_type scala_version version : string) : string :=
  (url_prefix +:+ "/ai/chronon/spark_" +:+ jar_type +:+ "_" +:+ scala_version)
    +:+ "/" +:+ version +:+ "/spark_" +:+ jar_type +:+ "_" +:+ scala_version
    +:+ "-" +:+ version +:+ "-assembly.jar".

Definition jar_path_of (jar_type scala_version version : string) : string :=
  "/tmp/spark_" +:+ jar_type +:+ "_" +:+ scala_version +:+ "-" +:+ version
    +:+ "-assembly.jar".

(** The prefix of the artifact store: the mirror of the environment when
    it is set and not empty, the public repository otherwise. *)
Definition url_prefix_of (w : world) : string :=
  if PyStr.truthy (environ w !! "CHRONON_MAVEN_MIRROR_PREFIX")
  then PyStr.fmt (environ w !! "CHRONON_MAVEN_MIRROR_PREFIX")
  else "https://s01.oss.sonatype.org/service/local/repositories/public/content".

(** The command that lists the versions of a jar. *)
Definition metadata_cmd (url_prefix jar_type scala_version : string) : string :=
  "curl -s " +:+ (url_prefix +:+ "/ai/chronon/spark_" +:+ jar_type +:+ "_" +:+ scala_version)
    +:+ "/maven-metadata.xml".

(** A text made of decimal digits only. *)
Fixpoint digits_only (s : string) : bool :=
  match s with
  | EmptyString => true
  | String c r => PyStr.is_digit c && digits_only r
  end.

(** The text begins with a decimal digit. *)
Definition starts_with_digit (s : string) : bool :=
  match s with
  | String c _ => PyStr.is_digit c
  | EmptyString => false
  end.

(** A text without any character that satisfies [p]. *)
Fixpoint free_of (p : ascii → bool) (s : string) : bool :=
  match s with
  | EmptyString => true
  | String c r => negb (p c) && free_of p r
  end.

(** The arguments [Runner.run] passes on for a mode template. *)
Definition final_args_of (self : Runner) (template : fmt_args → string) : string :=
  template {| f_conf_path := PyStr.fmt (r_conf self);
              f_ds := PyStr.fmt (r_ds self);
              f_online_jar := PyStr.fmt (r_online_jar self);
              f_online_class := PyStr.fmt (r_online_class self) |}
    +:+ " " +:+ r_args self.

(** A runner whose mode has the template [template] and whose conf type
    and mode have the route [subcommand]. *)
Definition routed (self : Runner) (mode_name : string) (template : fmt_args → string)
    (subcommand : string) : Prop :=
  r_mode self = Some mode_name ∧ MODE_ARGS !! mode_name = Some template ∧
  ∃ ctype, r_conf_type self = Some ctype ∧ route ctype mode_name = Returns subcommand.







(** An exception of the class [Exception], which [except Exception]
    catches; [SystemExit] derives from [BaseException] only and passes
    through. *)
Definition is_Exception (e : exn) : Prop := e ≠ SystemExit.

(** ** Reasoning about computations *)

Section MonadFacts.

Context {A B : Type}.

Lemma outcome_bind_returns (o : outcome A) (f : A → outcome B) (b : B) :
  o ≫= f = Returns b ↔ ∃ a, o = Returns a ∧ f a = Returns b.
Proof.
  destruct o as [a|e]; simpl; split.
  - intros H. by exists a.
  - by intros (a' & [= <-] & H).
  - discriminate.
  - by intros (a' & [=] & _).
Qed.

Lemma bind_run (m : M A) (f : A → M B) (w : world) :
  (m ≫= f) w =
  match m w with
  | (w', Returns a) => f a w'
  | (w', Raises e) => (w', Raises e)
  end.
Proof. reflexivity. Qed.

Lemma bind_returns (m : M A) (f : A → M B) (w w' : world) (b : B) :
  (m ≫= f) w = (w', Returns b) ↔
  ∃ w1 a, m w = (w1, Returns a) ∧ f a w1 = (w', Returns b).
Proof.
  rewrite bind_run. destruct (m w) as [w1 [a|e]]; split.
  - intros H. by exists w1, a.
  - by intros (w2 & a' & [= <- <-] & H).
  - discriminate.
  - by intros (w2 & a' & [=] & _).
Qed.

Lemma bind_raises_first (m : M A) (f : A → M B) (w w' : world) (e : exn) :
  m w = (w', Raises e) → (m ≫= f) w = (w', Raises e).
Proof. intros H. by rewrite bind_run, H. Qed.

End MonadFacts.

Section Frame.

Lemma keeps_ret {A} (a : A) : keeps_environ (mret a : M A).
Proof. by intros w X v H. Qed.

Lemma keeps_lift {A} (o : outcome A) : keeps_environ (lift o).
Proof. by intros w X v H. Qed.

Lemma keeps_raise {A} (e : exn) : keeps_environ (raise e : M A).
Proof. by intros w X v H. Qed.

Lemma keeps_bind {A B} (m : M A) (f : A → M B) :
  keeps_environ m → (∀ a, keeps_environ (f a)) → keeps_environ (m ≫= f).
Proof.
  intros Hm Hf w X v H. rewrite bind_run.
  specialize (Hm w X v H). destruct (m w) as [w1 [a|e]]; simpl in *.
  - by apply Hf.
  - done.
Qed.

Lemma keeps_try_except {A} (body : M A) (handler : exn → M A) :
  keeps_environ body → (∀ e, keeps_environ (handler e)) →
  keeps_environ (try_except body handler).
Proof.
  intros Hb Hh w X v H. unfold try_except.
  specialize (Hb w X v H). destruct (body w) as [w1 [a|e]]; simpl in *.
  - done.
  - destruct e; by try apply Hh.
Qed.

Lemma keeps_for_each {A} (xs : list A) (body : A → M unit) :
  (∀ x, keeps_environ (body x)) → keeps_environ (for_each xs body).
Proof.
  intros Hb. induction xs as [|x xs IH]; simpl.
  - apply keeps_ret.
  - apply keeps_bind; [apply Hb | intros _; apply IH].
Qed.

Lemma keeps_sleep (secs : Z) : keeps_environ (sleep secs).
Proof. by intros w X v H. Qed.

(** The merge never writes a variable that is already set. *)
Lemma keeps_set_if_absent (key : string) (value : pyval) :
  keeps_environ (set_if_absent key value).
Proof.
  intros w X v H. unfold set_if_absent.
  destruct (environ w !! key) as [old|] eqn:Hkey; [done|].
  assert (key ≠ X) as Hne by (intros ->; congruence).
  destruct value; try done.
  unfold environ_set.
  repeat case_match; simpl; try done.
  by rewrite lookup_insert_ne.
Qed.

Lemma keeps_apply_layer (layer : pyval) : keeps_environ (apply_layer layer).
Proof.
  destruct layer; try apply keeps_raise.
  unfold apply_layer.
  apply (map_fold_weak_ind (λ (r : M unit) _, keeps_environ r)).
  - apply keeps_ret.
  - intros key value d r _ IH.
    apply keeps_bind; [done | intros _; apply keeps_set_if_absent].
Qed.

Lemma keeps_print_found (environment : layers) : keeps_environ (print_found environment).
Proof. intros w X v H. unfold print_found. by repeat case_match. Qed.

Lemma keeps_apply_layers (environment : layers) : keeps_environ (apply_layers environment).
Proof.
  apply keeps_bind; [apply keeps_print_found | intros _].
  apply keeps_for_each. intros layer. apply keeps_apply_layer.
Qed.

End Frame.

(** ** Layered environment resolution *)

Section Resolution.

Context (host : Host).

(** What one dictionary layer does to the environment when its loop
    returns: a variable already set keeps its value, an unset one takes
    the layer's string if the layer has one. *)
Lemma apply_layer_returns (d : gmap string pyval) (w w' : world) :
  apply_layer (PDict d) w = (w', Returns tt) →
  ∀ X, environ w' !! X =
       match environ w !! X with
       | Some v => Some v
       | None => layer_value d X
       end.
Proof.
  unfold apply_layer. revert w w'.
  apply (map_fold_weak_ind
           (λ (r : M unit) (m : gmap string pyval),
              ∀ w w', r w = (w', Returns tt) →
              ∀ X, environ w' !! X =
                   match environ w !! X with
                   | Some v => Some v
                   | None => layer_value m X
                   end)).
  - intros w w' [= <-] X. unfold layer_value. rewrite lookup_empty.
    by destruct (environ w !! X).
  - intros key value m r Hfresh IH w w' Hrun X.
    apply bind_returns in Hrun as (w1 & [] & Hr & Hset).
    specialize (IH w w1 Hr).
    pose proof (IH X) as HX. unfold layer_value in *.
    unfold set_if_absent in Hset.
    destruct (decide (key = X)) as [->|Hne].
    + rewrite lookup_insert_eq. rewrite Hfresh in HX.
      destruct (environ w !! X) as [old|] eqn:Hold; rewrite HX in Hset.
      * by injection Hset as <-.
      * destruct value; try (by injection Hset as <-);
          unfold environ_set in Hset; try discriminate.
        clear HX IH. repeat case_match; try discriminate.
        injection Hset as <-. simpl. by rewrite lookup_insert_eq.
    + rewrite lookup_insert_ne by done. rewrite <- HX. clear HX IH.
      destruct (environ w1 !! key) as [old|] eqn:Hold.
      * by injection Hset as <-.
      * destruct value; try (by injection Hset as <-);
          unfold environ_set in Hset; try discriminate.
        repeat case_match; try discriminate.
        injection Hset as <-. simpl. by rewrite lookup_insert_ne.
Qed.

(** A layer that is not a dictionary cannot be iterated. *)
Lemma apply_layer_returns_dict (layer : pyval) (w w' : world) :
  apply_layer layer w = (w', Returns tt) → ∃ d, layer = PDict d.
Proof. destruct layer; try discriminate. eauto. Qed.

Lemma print_found_returns (environment : layers) (w w' : world) (u : unit) :
  print_found environment w = (w', Returns u) → w' = w.
Proof. unfold print_found. repeat case_match; congruence. Qed.

(** The first layer of [order] that gives a string to an unset variable
    decides it: here the first layer itself. *)
Lemma first_layer_wins (a : Args) (environment : layers) (w w' : world) (X v : string) :
  load_layers host a = Returns environment →
  layer_lookup (conf_env environment) X = Some (PStr v) →
  environ w !! X = None →
  set_runtime_env host a w = (w', Returns tt) →
  environ w' !! X = Some v.
Proof.
  intros Hload Hconf Hunset Hrun.
  unfold set_runtime_env in Hrun.
  apply bind_returns in Hrun as (w0 & environment' & Hlift & Hrun).
  unfold lift in Hlift. rewrite Hload in Hlift. injection Hlift as <- <-.
  unfold apply_layers in Hrun.
  apply bind_returns in Hrun as (w1 & [] & Hprint & Hrun).
  apply print_found_returns in Hprint as ->.
  unfold order in Hrun. simpl in Hrun.
  apply bind_returns in Hrun as (w2 & [] & Hfirst & Hrest).
  destruct (apply_layer_returns_dict _ _ _ Hfirst) as [d Hd].
  rewrite Hd in Hfirst, Hconf. simpl in Hconf.
  pose proof (apply_layer_returns d w w2 Hfirst X) as Hw2.
  rewrite Hunset in Hw2. unfold layer_value in Hw2. rewrite Hconf in Hw2.
  pose proof (keeps_for_each
                [team_env environment; default_env environment;
                 common_env environment; PDict (cli_args environment)]
                apply_layer keeps_apply_layer w2 X v Hw2) as Hkeep.
  simpl in Hkeep. change (for_each _ _ w2) with
    ((apply_layer (team_env environment) ≫= λ _,
      for_each [default_env environment; common_env environment;
                PDict (cli_args environment)] apply_layer) w2) in Hkeep.
  by rewrite Hrest in Hkeep.
Qed.

(** C1 (amended). A variable [X] defined in [conf_env] (with a string
    value) and in [common_env], in no other layer and not in the process
    environment, ends with the [conf_env] value when [set_runtime_env]
    returns: the layers are applied in the order conf_env, team_env,
    default_env, common_env, cli_args and the first writer wins. *)
Theorem conf_env_beats_common_env
    (a : Args) (environment : layers) (w w' : world) (X v_conf v_common : string) :
  load_layers host a = Returns environment →
  layer_lookup (conf_env environment) X = Some (PStr v_conf) →
  layer_lookup (common_env environment) X = Some (PStr v_common) →
  layer_lookup (team_env environment) X = None →
  layer_lookup (default_env environment) X = None →
  cli_args environment !! X = None →
  environ w !! X = None →
  set_runtime_env host a w = (w', Returns tt) →
  environ w' !! X = Some v_conf.
Proof.
  intros Hload Hconf _ _ _ _ Hunset Hrun.
  by apply (first_layer_wins a environment w w' X v_conf).
Qed.

(** C2. A variable that the process environment defines before
    [set_runtime_env] runs keeps its value, whatever the layers hold and
    whether the function returns or raises. *)
Theorem set_runtime_env_keeps_existing (a : Args) (w : world) (X v : string) :
  environ w !! X = Some v →
  environ (set_runtime_env host a w).1 !! X = Some v.
Proof.
  revert w X v. change (keeps_environ (set_runtime_env host a)).
  apply keeps_bind; [apply keeps_lift | apply keeps_apply_layers].
Qed.

End Resolution.

Lemma conf_env_beats_common_env_witness :
  environ (set_runtime_env Fixture.sample_host Fixture.sample_args Fixture.empty_world).1
    !! "EXECUTOR_MEMORY" = Some "9G".
Proof.
  apply (conf_env_beats_common_env Fixture.sample_host Fixture.sample_args
           Fixture.sample_layers Fixture.empty_world _ "EXECUTOR_MEMORY" "9G" "1G");
    vm_compute; reflexivity.
Defined.

Lemma common_env_wins_refuted : ¬ common_env_wins_as_stated.
Proof.
  intros stated.
  pose proof (stated Fixture.sample_host Fixture.sample_args Fixture.empty_world
                (set_runtime_env Fixture.sample_host Fixture.sample_args Fixture.empty_world).1
                Fixture.sample_layers "EXECUTOR_MEMORY" "9G" "1G") as at_sample.
  assert (environ (set_runtime_env Fixture.sample_host Fixture.sample_args
                     Fixture.empty_world).1 !! "EXECUTOR_MEMORY" = Some "1G") as wrong
    by (apply at_sample; vm_compute; reflexivity).
  vm_compute in wrong. discriminate wrong.
Qed.

Lemma set_runtime_env_keeps_existing_witness :
  environ Fixture.exporting_world !! "EXECUTOR_MEMORY" = Some "64G" ∧
  environ (set_runtime_env Fixture.sample_host Fixture.sample_args Fixture.exporting_world).1
    !! "EXECUTOR_MEMORY" = Some "64G".
Proof.
  split; [reflexivity|].
  apply (set_runtime_env_keeps_existing Fixture.sample_host Fixture.sample_args
           Fixture.exporting_world "EXECUTOR_MEMORY" "64G").
  reflexivity.
Defined.

(** ** Conf paths and documents *)

Lemma split_conf_short (conf : string) :
  (List.length (PyStr.split_on "/"%char conf) < 4)%nat →
  split_conf conf = Raises (ValueError NotEnoughValues).
Proof.
  unfold split_conf. intros Hshort.
  destruct (PyStr.split_on "/"%char conf) as [|s1 [|s2 [|s3 [|s4 rest]]]];
    simpl in *; try reflexivity. lia.
Qed.

Lemma split_conf_long (conf : string) :
  (4 ≤ List.length (PyStr.split_on "/"%char conf))%nat →
  returned (split_conf conf).
Proof.
  unfold split_conf, returned. intros Hlong.
  set (segments := PyStr.split_on "/"%char conf) in *.
  assert (List.length (drop (List.length segments - 4) segments) = 4%nat) as Hfour
    by (rewrite length_drop; lia).
  destruct (drop (List.length segments - 4) segments) as [|s1 [|s2 [|s3 [|s4 [|s5 rest]]]]];
    simpl in Hfour; try lia.
  eauto.
Qed.

Section Documents.

Context (host : Host).

(** C3. When a repository, a conf path and a mode are supplied and the
    teams document exists, a conf path with fewer than four segments makes
    [set_runtime_env] raise and leave the world as it was; when the teams
    document loads, what is raised is the [ValueError] of the unpacking. The
    script body does not catch it: [main] raises the same exception before
    any subprocess is launched. *)
Theorem short_conf_path_fails
    (a : Args) (w : world) (repo_dir conf_rel mode_name : string) :
  supplied a repo_dir conf_rel mode_name →
  path_exists host (PyStr.path_join repo_dir "teams.json") = true →
  (List.length (PyStr.split_on "/"%char conf_rel) < 4)%nat →
  ∃ e, set_runtime_env host a w = (w, Raises e) ∧
       (returned (load_teams host (PyStr.path_join repo_dir "teams.json")) →
        e = ValueError NotEnoughValues) ∧
       (∀ cli unknown_args,
          parse_known_args host (environ w) cli = Returns a →
          main host cli unknown_args w = (w, Raises e)).
Proof.
  intros (Hrepo & Hrepo_ne & Hconf & Hconf_ne & Hmode & Hmode_ne) Hteams Hshort.
  assert (∃ e, load_layers host a = Raises e ∧
               (returned (load_teams host (PyStr.path_join repo_dir "teams.json")) →
                e = ValueError NotEnoughValues)) as (e & Hload & He).
  { unfold load_layers. rewrite Hrepo, Hrepo_ne, Hteams, Hconf, Hmode, Hconf_ne, Hmode_ne.
    destruct (load_teams host _) as [[teams_json common]|e]; simpl.
    - rewrite (split_conf_short _ Hshort). simpl. eauto.
    - exists e. split; [done|]. by intros [? [=]]. }
  assert (set_runtime_env host a w = (w, Raises e)) as Hrun.
  { unfold set_runtime_env. rewrite bind_run. unfold lift. by rewrite Hload. }
  exists e. split_and!; [done | done |].
  intros cli unknown_args Hparse. unfold main.
  rewrite bind_run. unfold lift. rewrite Hparse.
  by apply bind_raises_first.
Qed.

(** The same unpacking guards [Runner.__init__]. *)
Lemma Runner_init_short_conf (a : Args) (jar_path conf_rel : string) (w : world) :
  conf a = Some conf_rel → PyStr.is_empty conf_rel = false →
  (List.length (PyStr.split_on "/"%char conf_rel) < 4)%nat →
  raised (Runner_init host a jar_path w).2.
Proof.
  intros Hconf Hne Hshort. unfold Runner_init, raised.
  rewrite bind_run.
  match goal with |- context [match ?m w with _ => _ end] => destruct (m w) as [w1 [jar|e]] end;
    [|by eauto].
  rewrite bind_run, Hconf. simpl. rewrite Hne. simpl.
  rewrite bind_run. unfold lift. rewrite (split_conf_short _ Hshort). simpl. eauto.
Qed.

(** C6 (amended). Below an existing team entry a missing context, or a
    missing mode under the context, gives the empty mapping; a missing team
    does not: [teams_json[team]] raises [KeyError]. *)
Theorem extract_team_env_missing
    (teams : gmap string pyval) (team context mode_name : string) :
  (teams !! team = None →
   extract_team_env (PDict teams) team context mode_name = Raises (KeyError team)) ∧
  (∀ td, teams !! team = Some (PDict td) → td !! context = None →
   extract_team_env (PDict teams) team context mode_name = Returns PyObj.empty_dict) ∧
  (∀ td cd, teams !! team = Some (PDict td) → td !! context = Some (PDict cd) →
   cd !! mode_name = None →
   extract_team_env (PDict teams) team context mode_name = Returns PyObj.empty_dict).
Proof.
  unfold extract_team_env, PyObj.subscript, PyObj.getitem. split_and!.
  - by intros ->.
  - intros td -> Hctx. simpl. by rewrite Hctx.
  - intros td cd -> Hctx Hmode. simpl. rewrite Hctx. simpl. by rewrite Hmode.
Qed.

(** An unknown team stops the whole resolution. *)
Lemma load_layers_unknown_team
    (a : Args) (repo_dir conf_rel mode_name context ctype team : string)
    (teams : gmap string pyval) (common conf_json conf_layer : pyval) :
  supplied a repo_dir conf_rel mode_name →
  path_exists host (PyStr.path_join repo_dir "teams.json") = true →
  load_teams host (PyStr.path_join repo_dir "teams.json") = Returns (PDict teams, common) →
  split_conf conf_rel = Returns (context, ctype, team) →
  json_load host (PyStr.path_join repo_dir conf_rel) = Returns conf_json →
  extract_conf_env conf_json mode_name = Returns conf_layer →
  teams !! team = None →
  load_layers host a = Raises (KeyError team).
Proof.
  intros (Hrepo & Hrepo_ne & Hconf & Hconf_ne & Hmode & Hmode_ne) Hexists Hteams Hsplit
    Hjson Hconf_env Hteam.
  unfold load_layers.
  rewrite Hrepo, Hrepo_ne, Hexists, Hteams, Hconf, Hmode, Hconf_ne, Hmode_ne. simpl.
  rewrite Hsplit. simpl. rewrite Hjson. simpl. rewrite Hconf_env. simpl.
  unfold extract_team_env, PyObj.subscript, PyObj.getitem. by rewrite Hteam.
Qed.



End Documents.

Lemma short_conf_path_fails_witness :
  ∃ e, set_runtime_env Fixture.sample_host
         (Fixture.args_for (Some "repo") (Some "joins/sample_team/sample_join.v1")
            (Some "backfill") None)
         Fixture.empty_world = (Fixture.empty_world, Raises e) ∧
       e = ValueError NotEnoughValues.
Proof.
  destruct (short_conf_path_fails Fixture.sample_host
              (Fixture.args_for (Some "repo") (Some "joins/sample_team/sample_join.v1")
                 (Some "backfill") None)
              Fixture.empty_world "repo" "joins/sample_team/sample_join.v1" "backfill")
    as (e & Hrun & Hwhy & _).
  - by repeat split.
  - reflexivity.
  - vm_compute. lia.
  - exists e. split; [exact Hrun|]. apply Hwhy. eexists. vm_compute. reflexivity.
Defined.

Lemma team_env_total_refuted : ¬ team_env_total_as_stated.
Proof.
  intros stated.
  assert (path_absent ∅ "sample_team" "production" "backfill") as Habsent by (by left).
  specialize (stated ∅ "sample_team" "production" "backfill" Habsent).
  vm_compute in stated. discriminate stated.
Qed.

Lemma extract_team_env_missing_witness :
  extract_team_env (PDict Fixture.teams_map) "sample_team" "staging" "backfill"
    = Returns PyObj.empty_dict.
Proof.
  destruct (extract_team_env_missing Fixture.teams_map "sample_team" "staging" "backfill")
    as (_ & Hcontext & _).
  eapply Hcontext; vm_compute; reflexivity.
Defined.



(** ** The merge as a whole, and the application name *)

(** When [set_runtime_env]'s loops return, the four layers read from JSON
    were dictionaries, and every variable the process did not define has
    the value of the first layer, in [order], that holds a string for it. *)
Lemma apply_layers_returns (environment : layers) (w w' : world) :
  apply_layers environment w = (w', Returns tt) →
  ∃ dc dt dd dm,
    conf_env environment = PDict dc ∧ team_env environment = PDict dt ∧
    default_env environment = PDict dd ∧ common_env environment = PDict dm ∧
    ∀ X, environ w' !! X =
         match environ w !! X with
         | Some v => Some v
         | None => resolved dc dt dd dm (cli_args environment) X
         end.
Proof.
  unfold apply_layers, order. intros Hrun.
  apply bind_returns in Hrun as (w0 & [] & Hprint & Hrun).
  apply print_found_returns in Hprint as ->. simpl in Hrun.
  apply bind_returns in Hrun as (w1 & [] & H1 & Hrun).
  apply bind_returns in Hrun as (w2 & [] & H2 & Hrun).
  apply bind_returns in Hrun as (w3 & [] & H3 & Hrun).
  apply bind_returns in Hrun as (w4 & [] & H4 & Hrun).
  apply bind_returns in Hrun as (w5 & [] & H5 & [= <-]).
  destruct (apply_layer_returns_dict _ _ _ H1) as [dc Hdc].
  destruct (apply_layer_returns_dict _ _ _ H2) as [dt Hdt].
  destruct (apply_layer_returns_dict _ _ _ H3) as [dd Hdd].
  destruct (apply_layer_returns_dict _ _ _ H4) as [dm Hdm].
  rewrite Hdc in H1. rewrite Hdt in H2. rewrite Hdd in H3. rewrite Hdm in H4.
  exists dc, dt, dd, dm. split_and!; try done.
  intros X. unfold resolved.
  rewrite (apply_layer_returns _ _ _ H5 X), (apply_layer_returns _ _ _ H4 X),
    (apply_layer_returns _ _ _ H3 X), (apply_layer_returns _ _ _ H2 X),
    (apply_layer_returns _ _ _ H1 X).
  destruct (environ w !! X); [done|].
  destruct (layer_value dc X); [done|].
  destruct (layer_value dt X); [done|].
  destruct (layer_value dd X); [done|].
  by destruct (layer_value dm X).
Qed.

Section AppName.

Context (host : Host).

(** An explicit application name is what [cli_args] holds for [APP_NAME]. *)
Lemma cli_app_name_override (a : Args) (environment : layers) (name : string) :
  load_layers host a = Returns environment →
  app_name a = Some name → PyStr.is_empty name = false →
  cli_args environment !! "APP_NAME" = Some (PStr name).
Proof.
  unfold load_layers. intros Hload Hname Hne.
  apply outcome_bind_returns in Hload as (before & _ & [= <-]). simpl.
  rewrite Hname. simpl. rewrite Hne. simpl.
  rewrite !lookup_insert_ne by done. by rewrite lookup_insert_eq.
Qed.

(** Without one, the mode [metadata-export] gives the fixed literal. *)
Lemma cli_app_name_metadata_export (a : Args) (environment : layers) :
  load_layers host a = Returns environment →
  PyStr.truthy (app_name a) = false → mode a = Some "metadata-export" →
  cli_args environment !! "APP_NAME" = Some (PStr "chronon_metadata_export").
Proof.
  unfold load_layers. intros Hload Hname Hmode.
  apply outcome_bind_returns in Hload as (before & _ & [= <-]). simpl.
  rewrite Hname, Hmode. simpl.
  rewrite !lookup_insert_ne by done. by rewrite lookup_insert_eq.
Qed.

(** Without one and in any other mode, a conf gives the template. *)
Lemma cli_app_name_template
    (a : Args) (environment : layers) (repo_dir conf_rel mode_name : string)
    (context ctype team name : string) (conf_json meta : gmap string pyval) :
  load_layers host a = Returns environment →
  supplied a repo_dir conf_rel mode_name →
  path_exists host (PyStr.path_join repo_dir "teams.json") = true →
  split_conf conf_rel = Returns (context, ctype, team) →
  json_load host (PyStr.path_join repo_dir conf_rel) = Returns (PDict conf_json) →
  conf_json !! "metaData" = Some (PDict meta) → meta !! "name" = Some (PStr name) →
  PyStr.truthy (app_name a) = false → mode_name ≠ "metadata-export" →
  cli_args environment !! "APP_NAME"
    = Some (PStr (APP_NAME_TEMPLATE ctype mode_name context name)).
Proof.
  intros Hload (Hrepo & Hrepo_ne & Hconf & Hconf_ne & Hmode & Hmode_ne) Hexists Hsplit
    Hjson Hmeta Hname Hno_name Hother.
  unfold load_layers in Hload.
  rewrite Hrepo, Hrepo_ne, Hexists, Hconf, Hmode, Hconf_ne, Hmode_ne in Hload.
  simpl in Hload.
  destruct (load_teams host _) as [[teams_json common]|?]; simpl in Hload; [|discriminate].
  rewrite Hsplit in Hload. simpl in Hload. rewrite Hjson in Hload. simpl in Hload.
  destruct (extract_conf_env _ _) as [conf_layer|?]; simpl in Hload; [|discriminate].
  destruct (extract_team_env _ _ _ _) as [team_layer|?]; simpl in Hload; [|discriminate].
  destruct (extract_default_env _ _ _) as [default_layer|?]; simpl in Hload; [|discriminate].
  unfold PyObj.getitem in Hload. rewrite Hmeta in Hload. simpl in Hload.
  unfold PyObj.getitem in Hload. rewrite Hname in Hload. simpl in Hload.
  rewrite Hno_name in Hload.
  destruct (decide (Some mode_name = Some "metadata-export")) as [[= ->]|_]; [done|].
  injection Hload as <-. simpl.
  rewrite !lookup_insert_ne by done. by rewrite lookup_insert_eq.
Qed.

(** The name in [cli_args] reaches the environment when the process does
    not define [APP_NAME] and none of the four layers read from JSON holds
    a string for it. *)
Lemma app_name_applied
    (a : Args) (environment : layers) (w w' : world) (name : string) :
  load_layers host a = Returns environment →
  cli_args environment !! "APP_NAME" = Some (PStr name) →
  (∀ layer, layer ∈ [conf_env environment; team_env environment;
                     default_env environment; common_env environment] →
            layer_lookup layer "APP_NAME" = None) →
  environ w !! "APP_NAME" = None →
  set_runtime_env host a w = (w', Returns tt) →
  environ w' !! "APP_NAME" = Some name.
Proof.
  intros Hload Hcli Hsilent Hunset Hrun.
  unfold set_runtime_env in Hrun. rewrite bind_run in Hrun. unfold lift in Hrun.
  rewrite Hload in Hrun.
  apply apply_layers_returns in Hrun as (dc & dt & dd & dm & Hc & Ht & Hd & Hm & Henv).
  rewrite Henv, Hunset. unfold resolved, layer_value.
  pose proof (Hsilent (conf_env environment)) as Sc.
  pose proof (Hsilent (team_env environment)) as St.
  pose proof (Hsilent (default_env environment)) as Sd.
  pose proof (Hsilent (common_env environment)) as Sm.
  rewrite Hc in Sc. rewrite Ht in St. rewrite Hd in Sd. rewrite Hm in Sm.
  simpl in Sc, St, Sd, Sm.
  rewrite Sc, St, Sd, Sm, Hcli by set_solver. done.
Qed.

End AppName.

(** C7. An explicit application name does not always win: when the common
    scope of the teams document holds [APP_NAME], the merge sets that value
    first and the name in [cli_args], visited last, is skipped. The
    docstring of [set_runtime_env] ranks the variables derived from the
    arguments right after the process environment. *)
Theorem app_name_override_loses_to_layer :
  (∃ environment,
     load_layers Fixture.naming_host Fixture.naming_args = Returns environment ∧
     cli_args environment !! "APP_NAME" = Some (PStr "mine")) ∧
  environ Fixture.empty_world !! "APP_NAME" = None ∧
  (set_runtime_env Fixture.naming_host Fixture.naming_args Fixture.empty_world).2
    = Returns tt ∧
  environ (set_runtime_env Fixture.naming_host Fixture.naming_args Fixture.empty_world).1
    !! "APP_NAME" = Some "from_teams".
Proof.
  split_and!.
  - eexists. split; vm_compute; reflexivity.
  - reflexivity.
  - vm_compute. reflexivity.
  - vm_compute. reflexivity.
Qed.

(** ** Mode routing *)

Lemma route_returns (ctype mode_name subcommand : string) :
  route ctype mode_name = Returns subcommand ↔
  ∃ modes, ROUTES !! ctype = Some modes ∧ modes !! mode_name = Some subcommand.
Proof.
  unfold route, PyObj.getitem. split.
  - destruct (ROUTES !! ctype) as [modes|]; simpl; [|discriminate].
    destruct (modes !! mode_name) as [s|] eqn:Hmode; [|discriminate].
    intros [= <-]. eauto.
  - intros (modes & -> & Hmode). simpl. by rewrite Hmode.
Qed.

(** C4. [route] returns the subcommand of the table exactly for the pairs
    the table holds, and raises [KeyError] otherwise: for an unknown conf
    type, and for a mode outside the mode set of the conf type. *)
Theorem route_follows_table :
  route "joins" "fetch" = Returns "fetch" ∧
  route "group_bys" "stats-summary" = Raises (KeyError "stats-summary") ∧
  (∀ ctype mode_name,
     ROUTES !! ctype = None → route ctype mode_name = Raises (KeyError ctype)) ∧
  (∀ ctype mode_name subcommand,
     route ctype mode_name = Returns subcommand ↔
     ∃ modes, ROUTES !! ctype = Some modes ∧ modes !! mode_name = Some subcommand) ∧
  (∀ ctype mode_name,
     returned (route ctype mode_name) ↔
     ∃ modes, ROUTES !! ctype = Some modes ∧ mode_name ∈ dom modes) ∧
  (∀ ctype mode_name,
     raised (route ctype mode_name) ↔
     ¬ ∃ modes, ROUTES !! ctype = Some modes ∧ mode_name ∈ dom modes).
Proof.
  split_and!.
  - reflexivity.
  - reflexivity.
  - intros ctype mode_name Hnone. unfold route, PyObj.getitem. by rewrite Hnone.
  - apply route_returns.
  - intros ctype mode_name. unfold returned. split.
    + intros [s Hs]. apply route_returns in Hs as (modes & Hm & Hs).
      exists modes. split; [done|]. apply elem_of_dom. eauto.
    + intros (modes & Hm & [s Hs]%elem_of_dom). exists s. apply route_returns. eauto.
  - intros ctype mode_name. unfold raised, route, PyObj.getitem. split.
    + intros [e He] (modes & Hm & [s Hs]%elem_of_dom).
      rewrite Hm in He. simpl in He. by rewrite Hs in He.
    + intros Hnot. destruct (ROUTES !! ctype) as [modes|] eqn:Hm; simpl; [|by eauto].
      destruct (modes !! mode_name) as [s|] eqn:Hs; [|by eauto].
      destruct Hnot. exists modes. split; [done|]. apply elem_of_dom. eauto.
Qed.

(** ** The retry decorator *)

Section Retry.

Context (host : Host).

(** One iteration of the loop: a call that returns ends it, a call that
    raises is followed by a pause and the next iteration. *)
Lemma retry_loop_returns {A} (func : M A) (backoff attempt : Z) (left : nat)
    (w w1 : world) (a : A) :
  func w = (w1, Returns a) →
  retry_loop func backoff attempt left w = (w1, Returns a).
Proof.
  intros Hcall. destruct left; simpl; [done|]. unfold try_except. by rewrite Hcall.
Qed.

Lemma retry_loop_raises {A} (func : M A) (backoff attempt : Z) (left : nat)
    (w w1 : world) (e : exn) :
  func w = (w1, Raises e) → is_Exception e →
  retry_loop func backoff attempt (S left) w =
  retry_loop func backoff (attempt + 1) left
    (World (environ w1) (Sleep ((attempt + 1) * backoff) :: trace w1)).
Proof.
  intros Hcall Hcaught. simpl. unfold try_except. rewrite Hcall.
  by destruct e.
Qed.

(** A function that fails by launching a command that always fails: the
    loop launches it once per iteration and once more after the loop. *)
Lemma retry_loop_always_failing (cmd : string) (backoff : Z) (left : nat) :
  (∀ w, sh host w cmd = None) →
  ∀ (attempt : Z) (w : world),
    let r := retry_loop (check_call host cmd) backoff attempt left w in
    r.2 = Raises (CalledProcessError cmd) ∧
    environ r.1 = environ w ∧
    ∃ new, trace r.1 = (new ++ trace w)%list ∧
           commands new = replicate (S left) cmd ∧
           pauses new = backoffs backoff attempt left.
Proof.
  intros Hfails.
  assert (∀ w, check_call host cmd w
               = (World (environ w) (Exec cmd :: trace w), Raises (CalledProcessError cmd)))
    as Hcall by (intros w; unfold check_call; by rewrite Hfails).
  induction left as [|left IH]; intros attempt w; cbv zeta.
  - simpl. rewrite Hcall. simpl. split_and!; try done. by exists [Exec cmd].
  - rewrite (retry_loop_raises _ _ _ _ _ _ _ (Hcall w)) by done.
    pose proof (IH (attempt + 1)
                  (World (environ w) (Sleep ((attempt + 1) * backoff) :: Exec cmd :: trace w)))
      as IH'.
    cbv zeta in IH'. simpl in IH'.
    destruct IH' as (Hout & Henv & new & Htrace & Hexecs & Hsleeps).
    simpl. split_and!; try done.
    exists (new ++ [Sleep ((attempt + 1) * backoff); Exec cmd])%list.
    split_and!.
    + rewrite Htrace. by rewrite <- app_assoc.
    + unfold commands in *. rewrite omap_app, Hexecs. simpl.
      by rewrite <- replicate_cons_app.
    + unfold pauses in *. rewrite omap_app, Hsleeps. done.
Qed.

(** With [retries] retries the decorated function is invoked
    [retries + 2] times when every attempt fails. *)
Lemma retry_decorator_always_failing (cmd : string) (retries backoff : Z) (w : world) :
  (∀ w, sh host w cmd = None) → 0 ≤ retries →
  let r := retry_decorator retries backoff (check_call host cmd) w in
  r.2 = Raises (CalledProcessError cmd) ∧
  Z.of_nat (List.length (commands (events_since w r.1))) = retries + 2.
Proof.
  intros Hfails Hpos. unfold retry_decorator. simpl.
  pose proof (retry_loop_always_failing cmd backoff (Z.to_nat (retries + 1)) Hfails 0 w)
    as Hloop.
  cbv zeta in Hloop. destruct Hloop as (Hout & _ & new & Htrace & Hexecs & _).
  split; [done|].
  unfold events_since. rewrite Htrace, length_app.
  replace (List.length new + List.length (trace w) - List.length (trace w))%nat
    with (List.length new) by lia.
  rewrite take_app_length, Hexecs, length_replicate. lia.
Qed.

End Retry.

(** C8. [download_jar] on a host where every command fails, asked for the
    latest version: the body is invoked five times (four times inside the
    loop of the decorator, for [attempt] from 0 to 3, and once more after
    it), with pauses of 50, 100, 150 and 200 seconds, and the last failure
    is raised to the caller. One initial attempt and three retries would be
    four invocations. *)
Theorem download_jar_failing_invocations :
  let r := download_jar Fixture.offline_host None "uber" None "2.4.0" Fixture.empty_world in
  raised r.2 ∧
  List.length (commands (trace r.1)) = 5%nat ∧
  pauses (trace r.1) = [200; 150; 100; 50] ∧
  backoffs 50 0 (Z.to_nat (3 + 1)) = [200; 150; 100; 50].
Proof.
  split_and!.
  - eexists. vm_compute. reflexivity.
  - vm_compute. reflexivity.
  - vm_compute. reflexivity.
  - reflexivity.
Qed.

(** ** Reading the sizes *)

Lemma strip_prefix_Some (p s r : string) :
  PyStr.strip_prefix p s = Some r → s = p +:+ r ∧ PyStr.startswith p s = true.
Proof.
  revert s. induction p as [|a p IH]; intros s; simpl.
  - by intros [= ->].
  - destruct s as [|b s]; [done|].
    destruct (Ascii.eqb a b) eqn:Hab; [|done].
    apply Ascii.eqb_eq in Hab as ->. intros [-> Hstart]%IH.
    split; [done|]. by rewrite Hstart.
Qed.


Lemma span_digits_spec (s digits after : string) :
  PyStr.span_digits s = (digits, after) →
  s = digits +:+ after ∧ digits_only digits = true ∧ starts_with_digit after = false.
Proof.
  revert digits after. induction s as [|c s IH]; intros digits after; simpl.
  - by intros [= <- <-].
  - destruct (PyStr.is_digit c) eqn:Hc.
    + destruct (PyStr.span_digits s) as [d t]. intros [= <- <-].
      destruct (IH d t eq_refl) as (Hs & Hd & Ht). split_and!.
      * by rewrite Hs at 1.
      * simpl. by rewrite Hc, Hd.
      * done.
    + intros [= <- <-]. by split_and!.
Qed.


Lemma digit_not_space (c : ascii) : PyStr.is_digit c = true → PyStr.is_space c = false.
Proof.
  unfold PyStr.is_digit, PyStr.is_space.
  intros [H1 H2]%andb_true_iff. apply Nat.leb_le in H1, H2.
  apply orb_false_iff. split; apply andb_false_iff.
  - right. apply Nat.leb_gt. lia.
  - right. apply Nat.leb_gt. lia.
Qed.



Lemma digits_free_of (p : ascii → bool) (s : string) :
  (∀ c, PyStr.is_digit c = true → p c = false) →
  digits_only s = true → free_of p s = true.
Proof.
  intros Hp. induction s as [|c s IH]; simpl; [done|].
  intros [Hc Hs]%andb_true_iff. by rewrite (Hp _ Hc), IH.
Qed.

(** A word followed by a separator is the first field. *)
Lemma split_ws_aux_word (p : ascii → bool) (word : string) :
  ∀ (cur : list ascii) (c : ascii) (rest : string),
    free_of p word = true → p c = true → cur ≠ [] ∨ word ≠ EmptyString →
    PyStr.split_ws_aux p cur (word +:+ String c rest)
    = string_of_list_ascii (rev cur ++ list_ascii_of_string word)
        :: PyStr.split_ws_aux p [] rest.
Proof.
  induction word as [|x word IH]; intros cur c rest Hword Hc Hne.
  - simpl. rewrite Hc. destruct cur as [|y cur]; [by destruct Hne|].
    by rewrite app_nil_r.
  - simpl in Hword. apply andb_true_iff in Hword as [Hx Hword].
    apply negb_true_iff in Hx.
    change (PyStr.split_ws_aux p cur (String x (word +:+ String c rest))
            = string_of_list_ascii (rev cur ++ x :: list_ascii_of_string word)
                :: PyStr.split_ws_aux p [] rest).
    simpl. rewrite Hx. rewrite IH by (done || by left). simpl.
    by rewrite <- app_assoc.
Qed.

(** A word at the end of the text is the last field. *)
Lemma split_ws_aux_end (p : ascii → bool) (word : string) :
  ∀ cur : list ascii,
    free_of p word = true → cur ≠ [] ∨ word ≠ EmptyString →
    PyStr.split_ws_aux p cur word
    = [string_of_list_ascii (rev cur ++ list_ascii_of_string word)].
Proof.
  induction word as [|x word IH]; intros cur Hword Hne.
  - simpl. destruct cur as [|y cur]; [by destruct Hne|]. by rewrite app_nil_r.
  - simpl in Hword. apply andb_true_iff in Hword as [Hx Hword].
    apply negb_true_iff in Hx. simpl. rewrite Hx.
    rewrite IH by (done || by left). simpl. by rewrite <- app_assoc.
Qed.

Lemma int_digits_total (digits : string) :
  digits_only digits = true →
  ∀ acc, 0 ≤ acc → ∃ n, PyStr.int_digits acc digits = Some n ∧ 0 ≤ n.
Proof.
  induction digits as [|c digits IH]; simpl; intros Hd acc Hacc; [by eauto|].
  apply andb_true_iff in Hd as [Hc Hd]. rewrite Hc.
  apply IH; [done|].
  unfold PyStr.is_digit in Hc. apply andb_true_iff in Hc as [H1 _].
  apply Nat.leb_le in H1. lia.
Qed.

(** On a run of digits the integer literal is the value of the run. *)
Lemma int_groups_digits (digits : string) :
  digits_only digits = true →
  ∀ acc, PyStr.int_groups acc digits = PyStr.int_digits acc digits.
Proof.
  induction digits as [|c digits IH]; simpl; intros Hd acc; [done|].
  apply andb_true_iff in Hd as [Hc Hd]. rewrite Hc. by apply IH.
Qed.

Lemma digit_is_no_sign (c : ascii) :
  PyStr.is_digit c = true → c ≠ "+"%char ∧ c ≠ "-"%char.
Proof. intros Hc. split; intros ->; discriminate Hc. Qed.

Lemma int_literal_digits (digits : string) :
  digits_only digits = true → digits ≠ EmptyString →
  PyStr.int_literal digits = PyStr.int_of digits.
Proof.
  intros Hd Hne. destruct digits as [|c digits]; [done|].
  pose proof Hd as Hall. simpl in Hd. apply andb_true_iff in Hd as [Hc _].
  destruct (digit_is_no_sign c Hc) as [Hplus Hminus].
  assert (PyStr.int_literal (String c digits)
          = Z.mul 1 <$> PyStr.int_groups 0 (String c digits)) as ->.
  { unfold PyStr.int_literal.
    destruct (decide (c = "+"%char)) as [->|_]; [done|].
    destruct (decide (c = "-"%char)) as [->|_]; [done|].
    destruct c as [[] [] [] [] [] [] [] []]; try discriminate Hc; by rewrite ?Hc. }
  rewrite (int_groups_digits _ Hall). unfold PyStr.int_of.
  destruct (PyStr.int_digits 0 (String c digits)) as [n|]; [|done].
  simpl. f_equal. lia.
Qed.

Lemma search_content_length_Some (s group : string) :
  search_content_length s = Some group →
  ∃ before rest, s = before +:+ rest ∧ match_content_length rest = Some group.
Proof.
  induction s as [|c s IH].
  - done.
  - change (search_content_length (String c s))
      with (match match_content_length (String c s) with
            | Some m => Some m
            | None => search_content_length s
            end).
    destruct (match_content_length (String c s)) eqn:Hm.
    + intros [= <-]. by exists EmptyString, (String c s).
    + intros (before & rest & -> & Hrest)%IH. by exists (String c before), rest.
Qed.




(** The two fields of the text that the pattern matches. *)
Lemma split_ws_group (c : ascii) (digits : string) :
  PyStr.is_space c = true → digits_only digits = true → digits ≠ EmptyString →
  PyStr.split_ws ("content-length:" +:+ String c digits) = ["content-length:"; digits].
Proof.
  intros Hc Hdigits Hne. unfold PyStr.split_ws.
  rewrite (split_ws_aux_word PyStr.is_space "content-length:" [] c digits);
    [|done|done|by right].
  rewrite split_ws_aux_end;
    [|by apply digits_free_of; [apply digit_not_space|]|by right].
  simpl. by rewrite string_of_list_ascii_of_string.
Qed.



(** ** The conditional download *)





Section Download.

Context (host : Host).






End Download.




(** ** The streaming de-duplication check *)

Section Dedup.

Context (host : Host).

(** The body of the loop keeps a line under the stripped [app_name] of its
    record, and drops the line when any step of the [try] raises. *)
Lemma parse_app_matches (name line : string) :
  matches host name line
  = match parse_app host line with
    | Returns (n, app_json) => if decide (n = name) then Some app_json else None
    | Raises _ => None
    end.
Proof.
  unfold matches, parse_app.
  destruct (json_loads host (PyStr.strip line)) as [[| | | | |record]|]; try done.
  simpl. unfold PyObj.getitem.
  destruct (record !! "app_name") as [[| | |written| |]|]; done.
Qed.

(** After the loop over the lines, the list stored under [name] is what
    was there before followed by the records that match [name], in the
    order of the lines. *)
Lemma foldl_add_app (lines : list string) (name : string) :
  ∀ running_app_map : gmap string (list pyval),
    default [] (foldl (add_app host) running_app_map lines !! name)
    = (default [] (running_app_map !! name) ++ omap (matches host name) lines)%list.
Proof.
  induction lines as [|line lines IH]; intros running_app_map; simpl.
  - by rewrite app_nil_r.
  - rewrite IH, (parse_app_matches name line). unfold add_app.
    destruct (parse_app host line) as [[n app_json]|e].
    + destruct (decide (n = name)) as [->|Hne].
      * rewrite lookup_insert_eq. simpl. by rewrite <- app_assoc.
      * by rewrite lookup_insert_ne.
    + done.
Qed.

Lemma filtered_apps_matching (listing : string) (name : option string) :
  filtered_apps host listing name = matching_apps host listing name.
Proof.
  unfold filtered_apps, matching_apps. destruct name as [n|]; [|done].
  by rewrite foldl_add_app, lookup_empty.
Qed.



End Dedup.



(** ** Routing guards of the runner *)

Section Guards.

Context (host : Host).

(** A pair outside the route table never reaches a subprocess: [run] raises
    on the lookup, the world untouched. *)
Lemma Runner_run_unrouted (self : Runner) (w : world) (mode_name ctype : string) (e : exn) :
  r_mode self = Some mode_name → is_Some (MODE_ARGS !! mode_name) →
  r_conf_type self = Some ctype → route ctype mode_name = Raises e →
  Runner_run host self w = (w, Raises e).
Proof.
  intros Hmode [template Htemplate] Hctype Hroute.
  unfold Runner_run. rewrite Hmode, Hctype. simpl PyStr.fmt.
  rewrite bind_run. unfold lift at 1, PyObj.getitem at 1. rewrite Htemplate.
  cbv beta iota. rewrite bind_run. unfold lift at 1. by rewrite Hroute.
Qed.

(** The loop condition of streaming mode is a substring test; among the
    modes the parser accepts only [streaming] passes it. *)
Lemma streaming_is_the_only_substring (mode_name : string) :
  is_Some (MODE_ARGS !! mode_name) →
  PyStr.contains mode_name "streaming" = true → mode_name = "streaming".
Proof.
  intros [template Htemplate] Hsub.
  apply (elem_of_list_to_map_2 (M := gmap string)) in Htemplate.
  repeat (apply elem_of_cons in Htemplate as [Heq|Htemplate];
          [injection Heq as -> _; first [reflexivity | by vm_compute in Hsub]|]).
  by apply elem_of_nil in Htemplate.
Qed.


End Guards.

(** ** The expectations of the test suite, replayed on the model *)

Example test_environment_backfill :
  let env := environ (set_runtime_env Fixture.sample_host Fixture.sample_args
                        Fixture.empty_world).1 in
  env !! "EXECUTOR_CORES" = Some "4" ∧
  env !! "DRIVER_MEMORY" = Some "15G" ∧
  env !! "VERSION" = Some "latest" ∧
  env !! "EXECUTOR_MEMORY" = Some "9G" ∧
  env !! "APP_NAME" = Some "chronon_joins_backfill_production_sample_team.sample_join.v1".
Proof. vm_compute. by repeat split. Qed.

Example test_environment_metadata_export :
  environ (set_runtime_env Fixture.sample_host
             (Fixture.args_for None None (Some "metadata-export") None)
             Fixture.empty_world).1 !! "APP_NAME" = Some "chronon_metadata_export" ∧
  environ (set_runtime_env Fixture.sample_host
             (Fixture.args_for None None (Some "metadata-export") None)
             (World {["APP_NAME" := "fake-name"]} [])).1 !! "APP_NAME" = Some "fake-name" ∧
  environ (set_runtime_env Fixture.sample_host
             (Fixture.args_for None None (Some "metadata-export") (Some "fake-name"))
             Fixture.empty_world).1 !! "APP_NAME" = Some "fake-name".
Proof. vm_compute. by repeat split. Qed.

Example test_download_jar :
  (download_jar (Fixture.scheduler_host "") (Some "version") "uber" None "2.4.0"
     Fixture.empty_world).2 = Returns "/tmp/spark_uber_2.11-version-assembly.jar" ∧
  (download_jar (Fixture.scheduler_host "") (Some "version") "uber" None "3.1.1"
     Fixture.empty_world).2 = Returns "/tmp/spark_uber_2.12-version-assembly.jar" ∧
  raised (download_jar (Fixture.scheduler_host "") (Some "version") "uber" None "2.1.0"
            Fixture.empty_world).2.
Proof.
  split_and!; [vm_compute; reflexivity | vm_compute; reflexivity |].
  eexists. vm_compute. reflexivity.
Qed.

(** ** More on the resolution: what it sets, what it refuses, what it
       never does *)

Section TraceFrame.

Lemma keeps_trace_ret {A} (a : A) : keeps_trace (mret a : M A).
Proof. by intros w. Qed.

Lemma keeps_trace_lift {A} (o : outcome A) : keeps_trace (lift o).
Proof. by intros w. Qed.

Lemma keeps_trace_raise {A} (e : exn) : keeps_trace (raise e : M A).
Proof. by intros w. Qed.

Lemma keeps_trace_bind {A B} (m : M A) (f : A → M B) :
  keeps_trace m → (∀ a, keeps_trace (f a)) → keeps_trace (m ≫= f).
Proof.
  intros Hm Hf w. rewrite bind_run. specialize (Hm w).
  destruct (m w) as [w1 [a|e]]; simpl in *; [|done].
  by rewrite Hf.
Qed.

Lemma keeps_trace_for_each {A} (xs : list A) (body : A → M unit) :
  (∀ x, keeps_trace (body x)) → keeps_trace (for_each xs body).
Proof.
  intros Hb. induction xs as [|x xs IH]; simpl.
  - apply keeps_trace_ret.
  - apply keeps_trace_bind; [apply Hb | intros _; apply IH].
Qed.

Lemma keeps_trace_environ_set (key : string) (value : pyval) :
  keeps_trace (environ_set key value).
Proof. intros w. unfold environ_set. by repeat case_match. Qed.

Lemma keeps_trace_set_if_absent (key : string) (value : pyval) :
  keeps_trace (set_if_absent key value).
Proof.
  intros w. unfold set_if_absent.
  destruct (environ w !! key); [done|].
  destruct value; try done; apply keeps_trace_environ_set.
Qed.

Lemma keeps_trace_apply_layer (layer : pyval) : keeps_trace (apply_layer layer).
Proof.
  destruct layer; try apply keeps_trace_raise.
  unfold apply_layer.
  apply (map_fold_weak_ind (λ (r : M unit) _, keeps_trace r)).
  - apply keeps_trace_ret.
  - intros key value d r _ IH.
    apply keeps_trace_bind; [done | intros _; apply keeps_trace_set_if_absent].
Qed.

Lemma keeps_trace_apply_layers (environment : layers) :
  keeps_trace (apply_layers environment).
Proof.
  apply keeps_trace_bind.
  - intros w. unfold print_found. by repeat case_match.
  - intros _. apply keeps_trace_for_each. intros layer. apply keeps_trace_apply_layer.
Qed.

End TraceFrame.

Lemma environ_set_returns (key : string) (value : pyval) (w w' : world) :
  environ_set key value w = (w', Returns tt) → settable key value = true.
Proof.
  unfold environ_set, settable. destruct value; try discriminate.
  by repeat case_match.
Qed.

(** One dictionary layer whose loop returns: the environment it leaves, and
    every entry it found unset was a null or could be written. *)
Lemma apply_layer_returns_settable (d : gmap string pyval) (w w' : world) :
  apply_layer (PDict d) w = (w', Returns tt) →
  ∀ X v, d !! X = Some v → environ w !! X = None → v = PNone ∨ settable X v = true.
Proof.
  unfold apply_layer. revert w w'.
  apply (map_fold_weak_ind
           (λ (r : M unit) (m : gmap string pyval),
              ∀ w w', r w = (w', Returns tt) →
              (∀ X, environ w !! X = None → m !! X = None → environ w' !! X = None) ∧
              (∀ X v, m !! X = Some v → environ w !! X = None →
                      v = PNone ∨ settable X v = true))).
  - intros w w' [= <-]. split; [done|]. intros X v. by rewrite lookup_empty.
  - intros key value m r Hfresh IH w w' Hrun.
    apply bind_returns in Hrun as (w1 & [] & Hr & Hset).
    destruct (IH w w1 Hr) as [Hunset Hok]. split.
    + intros X HX Hnone. apply lookup_insert_None in Hnone as [Hm Hne].
      pose proof (Hunset X HX Hm) as Hw1.
      unfold set_if_absent in Hset.
      destruct (environ w1 !! key); [by injection Hset as <-|].
      destruct value; try (by injection Hset as <-); unfold environ_set in Hset;
        try discriminate.
      repeat case_match; try discriminate.
      injection Hset as <-. simpl. by rewrite lookup_insert_ne.
    + intros X v Hlook HX.
      destruct (decide (key = X)) as [->|Hne].
      * rewrite lookup_insert_eq in Hlook. injection Hlook as ->.
        unfold set_if_absent in Hset. rewrite (Hunset X HX Hfresh) in Hset.
        destruct v; try (by left); right; by apply environ_set_returns in Hset.
      * rewrite lookup_insert_ne in Hlook by done. by apply (Hok X v).
Qed.

Section MoreResolution.

Context (host : Host).

(** X1. When [set_runtime_env] returns, the four layers read from JSON
    were dictionaries and the environment is fully determined: a variable
    the process had keeps its value, any other variable has the string of
    the first layer of conf_env, team_env, default_env, common_env,
    cli_args that holds one for it, and is unset when none does. *)
Theorem merge_resolves (a : Args) (environment : layers) (w w' : world) :
  load_layers host a = Returns environment →
  set_runtime_env host a w = (w', Returns tt) →
  ∃ dc dt dd dm,
    conf_env environment = PDict dc ∧ team_env environment = PDict dt ∧
    default_env environment = PDict dd ∧ common_env environment = PDict dm ∧
    ∀ X, environ w' !! X =
         match environ w !! X with
         | Some v => Some v
         | None => resolved dc dt dd dm (cli_args environment) X
         end.
Proof.
  intros Hload Hrun. unfold set_runtime_env in Hrun.
  rewrite bind_run in Hrun. unfold lift in Hrun. rewrite Hload in Hrun.
  by apply apply_layers_returns.
Qed.

(** X2. [set_runtime_env] launches no subprocess and never sleeps, whether
    it returns or raises. *)
Theorem set_runtime_env_launches_nothing (a : Args) (w : world) :
  trace (set_runtime_env host a w).1 = trace w.
Proof.
  revert w. change (keeps_trace (set_runtime_env host a)).
  apply keeps_trace_bind; [apply keeps_trace_lift | apply keeps_trace_apply_layers].
Qed.

(** X3. A variable the process does not define, for which no layer offers
    a value that can be put in the environment and some layer offers one
    that is not null (a number, a boolean, a list, a string under an
    illegal name), is not skipped: [set_runtime_env] raises. *)
Theorem unsettable_value_raises
    (a : Args) (environment : layers) (w : world) (X : string) (bad : pyval) (v : pyval) :
  load_layers host a = Returns environment →
  environ w !! X = None →
  bad ∈ order environment → layer_lookup bad X = Some v → v ≠ PNone →
  (∀ layer u, layer ∈ order environment → layer_lookup layer X = Some u →
              settable X u = false) →
  raised (set_runtime_env host a w).2.
Proof.
  intros Hload Hunset Hbad Hv Hnot_null Hnone.
  destruct (set_runtime_env host a w) as [w' [[]|e]] eqn:Hrun; [|by eexists].
  exfalso.
  unfold set_runtime_env in Hrun. rewrite bind_run in Hrun. unfold lift in Hrun.
  rewrite Hload in Hrun. unfold apply_layers in Hrun.
  apply bind_returns in Hrun as (w0 & [] & Hprint & Hrun).
  apply print_found_returns in Hprint as ->.
  assert (∀ layers w1 w2,
            for_each layers apply_layer w1 = (w2, Returns tt) →
            environ w1 !! X = None →
            (∀ layer u, layer ∈ layers → layer_lookup layer X = Some u →
                        settable X u = false) →
            ∀ layer u, layer ∈ layers → layer_lookup layer X = Some u → u = PNone) as Hall.
  { clear. intros layers. induction layers as [|first rest IH]; intros w1 w2 Hrun HX Hnone.
    - intros layer u Hin. by apply elem_of_nil in Hin.
    - simpl in Hrun. apply bind_returns in Hrun as (w3 & [] & Hfirst & Hrest).
      destruct (apply_layer_returns_dict _ _ _ Hfirst) as [d ->].
      assert (∀ u, d !! X = Some u → u = PNone) as Hd.
      { intros u Hu.
        destruct (apply_layer_returns_settable d w1 w3 Hfirst X u Hu HX) as [->|Hok]; [done|].
        rewrite (Hnone (PDict d) u) in Hok; [done | apply list_elem_of_here | done]. }
      assert (environ w3 !! X = None) as HX3.
      { rewrite (apply_layer_returns d w1 w3 Hfirst X), HX. unfold layer_value.
        destruct (d !! X) as [u|] eqn:Hu; [|done]. by rewrite (Hd u). }
      intros layer u [->|Hin]%elem_of_cons Hu.
      + by apply Hd.
      + apply (IH w3 w2 Hrest HX3) with layer; [|done|done].
        intros layer' u' Hin'. apply Hnone. by apply list_elem_of_further. }
  apply Hnot_null. by apply (Hall _ _ _ Hrun Hunset Hnone bad v).
Qed.

(** X4. A layer read from JSON that is not an object (a string, a list, a
    number, a null under [common_env], under the mode of [modeToEnvMap] or
    under the mode of a team context) makes [set_runtime_env] raise. *)
Theorem non_dict_layer_raises (a : Args) (environment : layers) (w : world) (layer : pyval) :
  load_layers host a = Returns environment →
  layer ∈ [conf_env environment; team_env environment;
           default_env environment; common_env environment] →
  (∀ d, layer ≠ PDict d) →
  raised (set_runtime_env host a w).2.
Proof.
  intros Hload Hin Hnot_dict.
  destruct (set_runtime_env host a w) as [w' [[]|e]] eqn:Hrun; [|by eexists].
  exfalso.
  unfold set_runtime_env in Hrun. rewrite bind_run in Hrun. unfold lift in Hrun.
  rewrite Hload in Hrun.
  apply apply_layers_returns in Hrun as (dc & dt & dd & dm & Hc & Ht & Hd & Hm & _).
  repeat (apply elem_of_cons in Hin as [->|Hin]; [by eapply Hnot_dict|]).
  by apply elem_of_nil in Hin.
Qed.

(** X5. Without [teams.json] under the repository the conf is not read
    and nothing of the host matters: the layers are those of a run that was
    given neither a repository nor a conf, on any host. *)
Theorem no_teams_file_ignores_conf (a a' : Args) (host' : Host) (repo_dir : string) :
  repo a = Some repo_dir →
  path_exists host (PyStr.path_join repo_dir "teams.json") = false →
  repo a' = None → same_cli_options a a' →
  load_layers host a = load_layers host' a'.
Proof.
  intros Hrepo Hno Hrepo' (Hname & Hmode & Hjar & Honline & Hclass).
  unfold load_layers. rewrite Hrepo, Hrepo', Hno, Hname, Hmode, Hjar, Honline, Hclass.
  by destruct (PyStr.is_empty repo_dir).
Qed.

(** X6. When no layer read from JSON holds [APP_NAME] and the process does
    not define it, a returning [set_runtime_env] leaves in [APP_NAME]: the
    explicit application name when one is given; else the literal
    [chronon_metadata_export] in mode metadata-export; else, when a
    repository, a conf and a mode are supplied, [teams.json] exists under
    the repository (without it the conf is not read) and the conf is an
    object whose [metaData.name] is a string, the template
    [chronon_{conf_type}_{mode}_{context}_{name}]. *)
Theorem app_name_resolution
    (a : Args) (environment : layers) (w w' : world) :
  load_layers host a = Returns environment →
  (∀ layer, layer ∈ [conf_env environment; team_env environment;
                     default_env environment; common_env environment] →
            layer_lookup layer "APP_NAME" = None) →
  environ w !! "APP_NAME" = None →
  set_runtime_env host a w = (w', Returns tt) →
  (∀ name, app_name a = Some name → PyStr.is_empty name = false →
           environ w' !! "APP_NAME" = Some name) ∧
  (PyStr.truthy (app_name a) = false → mode a = Some "metadata-export" →
   environ w' !! "APP_NAME" = Some "chronon_metadata_export") ∧
  (∀ repo_dir conf_rel mode_name context ctype team name conf_json meta,
     PyStr.truthy (app_name a) = false → mode_name ≠ "metadata-export" →
     supplied a repo_dir conf_rel mode_name →
     path_exists host (PyStr.path_join repo_dir "teams.json") = true →
     split_conf conf_rel = Returns (context, ctype, team) →
     json_load host (PyStr.path_join repo_dir conf_rel) = Returns (PDict conf_json) →
     conf_json !! "metaData" = Some (PDict meta) → meta !! "name" = Some (PStr name) →
     environ w' !! "APP_NAME" = Some (APP_NAME_TEMPLATE ctype mode_name context name)).
Proof.
  intros Hload Hsilent Hunset Hrun. split_and!.
  - intros name Hname Hne.
    apply (app_name_applied host a environment w w' name); try done.
    by apply (cli_app_name_override host a environment name).
  - intros Hno Hmode.
    apply (app_name_applied host a environment w w'); try done.
    by apply (cli_app_name_metadata_export host a environment).
  - intros repo_dir conf_rel mode_name context ctype team name conf_json meta
      Hno Hother Hsupplied Hexists Hsplit Hjson Hmeta Hname.
    apply (app_name_applied host a environment w w'); try done.
    by apply (cli_app_name_template host a environment repo_dir conf_rel mode_name
                context ctype team name conf_json meta).
Qed.

End MoreResolution.

Lemma merge_resolves_witness :
  ∃ dc dt dd dm,
    conf_env Fixture.sample_layers = PDict dc ∧ team_env Fixture.sample_layers = PDict dt ∧
    default_env Fixture.sample_layers = PDict dd ∧
    common_env Fixture.sample_layers = PDict dm ∧
    ∀ X, environ (set_runtime_env Fixture.sample_host Fixture.sample_args
                    Fixture.exporting_world).1 !! X =
         match environ Fixture.exporting_world !! X with
         | Some v => Some v
         | None => resolved dc dt dd dm (cli_args Fixture.sample_layers) X
         end.
Proof.
  apply (merge_resolves Fixture.sample_host Fixture.sample_args Fixture.sample_layers
           Fixture.exporting_world); vm_compute; reflexivity.
Defined.

Lemma unsettable_value_raises_witness :
  raised (set_runtime_env Fixture.numeric_host Fixture.sample_args Fixture.empty_world).2.
Proof.
  apply (unsettable_value_raises Fixture.numeric_host Fixture.sample_args
           Fixture.numeric_layers Fixture.empty_world "EXECUTOR_CORES"
           (conf_env Fixture.numeric_layers) (PNum 4)).
  - vm_compute. reflexivity.
  - reflexivity.
  - apply list_elem_of_here.
  - vm_compute. reflexivity.
  - discriminate.
  - intros layer u Hin Hu.
    repeat (apply elem_of_cons in Hin as [->|Hin];
            [vm_compute in Hu; by (discriminate Hu || injection Hu as <-)|]).
    by apply elem_of_nil in Hin.
Defined.

Lemma non_dict_layer_raises_witness :
  raised (set_runtime_env Fixture.stringly_host
            (Fixture.args_for (Some "repo") None None None) Fixture.empty_world).2.
Proof.
  apply (non_dict_layer_raises Fixture.stringly_host
           (Fixture.args_for (Some "repo") None None None) Fixture.stringly_layers
           Fixture.empty_world (PStr "VERSION=latest")).
  - vm_compute. reflexivity.
  - vm_compute. do 3 apply list_elem_of_further. apply list_elem_of_here.
  - discriminate.
Defined.

Lemma no_teams_file_ignores_conf_witness :
  load_layers Fixture.bare_host Fixture.sample_args
  = load_layers Fixture.offline_host (Fixture.args_for None None (Some "backfill") None).
Proof.
  apply (no_teams_file_ignores_conf Fixture.bare_host Fixture.sample_args
           (Fixture.args_for None None (Some "backfill") None) Fixture.offline_host "repo").
  - reflexivity.
  - reflexivity.
  - reflexivity.
  - by repeat split.
Defined.

Lemma app_name_resolution_witness :
  environ (set_runtime_env Fixture.sample_host Fixture.sample_args Fixture.empty_world).1
    !! "APP_NAME" = Some "chronon_joins_backfill_production_sample_team.sample_join.v1".
Proof.
  destruct (app_name_resolution Fixture.sample_host Fixture.sample_args
              Fixture.sample_layers Fixture.empty_world
              (set_runtime_env Fixture.sample_host Fixture.sample_args
                 Fixture.empty_world).1) as (_ & _ & Htemplate).
  - vm_compute. reflexivity.
  - intros layer Hin.
    repeat (apply elem_of_cons in Hin as [->|Hin]; [vm_compute; reflexivity|]).
    by apply elem_of_nil in Hin.
  - reflexivity.
  - vm_compute. reflexivity.
  - apply (Htemplate "repo" Fixture.sample_conf "backfill" "production" "joins"
             "sample_team" "sample_team.sample_join.v1"
             (list_to_map
                [("metaData",
                  Fixture.dict [("name", PStr "sample_team.sample_join.v1");
                                ("modeToEnvMap",
                                 Fixture.dict [("backfill",
                                                Fixture.dict [("EXECUTOR_MEMORY", PStr "9G")])])])])
             (list_to_map
                [("name", PStr "sample_team.sample_join.v1");
                 ("modeToEnvMap",
                  Fixture.dict [("backfill", Fixture.dict [("EXECUTOR_MEMORY", PStr "9G")])])]));
      try (vm_compute; reflexivity); try discriminate.
    by repeat split.
Defined.

(** ** Conf paths: splitting and joining *)

Lemma eqb_sep_false (sep c : ascii) : Ascii.eqb sep c = false → Ascii.eqb c sep = false.
Proof. rewrite !Ascii.eqb_neq. congruence. Qed.

Lemma split_on_no_sep (sep : ascii) (s : string) :
  PyStr.has_char sep s = false → PyStr.split_on sep s = [s].
Proof.
  induction s as [|c s IH]; simpl; [done|].
  intros [Hc Hs]%orb_false_elim. rewrite (eqb_sep_false _ _ Hc). by rewrite (IH Hs).
Qed.

Lemma split_on_app_sep (sep : ascii) (a b : string) :
  PyStr.has_char sep a = false →
  PyStr.split_on sep (a +:+ String sep b) = a :: PyStr.split_on sep b.
Proof.
  induction a as [|c a IH]; simpl.
  - intros _. by rewrite Ascii.eqb_refl.
  - intros [Hc Ha]%orb_false_elim. rewrite (eqb_sep_false _ _ Hc). by rewrite (IH Ha).
Qed.

(** Splitting what was joined gives the segments back. *)
Lemma split_on_join (segments : list string) :
  segments ≠ [] → Forall slash_free segments →
  PyStr.split_on "/"%char (PyStr.join "/" segments) = segments.
Proof.
  induction segments as [|x [|y rest] IH]; intros Hne Hfree; [done| |].
  - simpl. apply split_on_no_sep. by inversion Hfree.
  - change (PyStr.join "/" (x :: y :: rest))
      with (x +:+ String "/"%char (PyStr.join "/" (y :: rest))).
    inversion Hfree as [|? ? Hx Hrest]; subst.
    rewrite (split_on_app_sep _ _ _ Hx). by rewrite IH.
Qed.

(** The last segment of a text that ends in ['/'] followed by a segment. *)
Lemma split_on_last (sep : ascii) (a b : string) :
  PyStr.has_char sep b = false →
  ∃ first front, PyStr.split_on sep (a +:+ String sep b) = ((first :: front) ++ [b])%list.
Proof.
  intros Hb. induction a as [|c a (first & front & IH)]; simpl.
  - rewrite Ascii.eqb_refl, (split_on_no_sep _ _ Hb). by exists EmptyString, [].
  - rewrite IH. destruct (Ascii.eqb c sep).
    + by exists EmptyString, (first :: front).
    + by exists (String c first), front.
Qed.

(** X7. [split_conf] returns exactly for the paths with at least four
    segments, and what it returns are the first three of the last four:
    for any leading directories, [.../context/conf_type/team/name] gives
    [(context, conf_type, team)]. *)
Theorem split_conf_last_four :
  (∀ conf, returned (split_conf conf) ↔
           (4 ≤ List.length (PyStr.split_on "/"%char conf))%nat) ∧
  (∀ leading context ctype team name,
     Forall slash_free (leading ++ [context; ctype; team; name]) →
     split_conf (PyStr.join "/" (leading ++ [context; ctype; team; name]))
     = Returns (context, ctype, team)).
Proof.
  split.
  - intros conf. split; [|apply split_conf_long].
    intros [r Hr].
    destruct (decide (4 ≤ List.length (PyStr.split_on "/"%char conf))%nat) as [|Hshort];
      [done|].
    rewrite split_conf_short in Hr by lia. discriminate.
  - intros leading context ctype team name Hfree.
    unfold split_conf. rewrite split_on_join; [|by destruct leading|done].
    rewrite length_app. simpl.
    replace (List.length leading + 4 - 4)%nat with (List.length leading) by lia.
    by rewrite drop_app_length.
Qed.

Lemma split_conf_last_four_witness :
  split_conf (PyStr.join "/" (["home"; "repo"] ++ ["production"; "joins"; "sample_team";
                                                   "sample_join.v1"]))
  = Returns ("production", "joins", "sample_team").
Proof.
  destruct split_conf_last_four as [_ Hlast].
  apply (Hlast ["home"; "repo"] "production" "joins" "sample_team" "sample_join.v1").
  repeat constructor.
Defined.

(** ** More on the retry decorator *)








Section MoreRetry.

Context (host : Host).



(** X10. A spark version outside [SUPPORTED_SPARK] fails the assertion of
    [download_jar], and the decorator retries even that: the function
    sleeps 50, 100, 150 and 200 seconds before the assertion error reaches
    the caller. No subprocess is launched. *)
Theorem download_jar_unsupported_spark
    (version : option string) (jar_type : string) (release_tag : option string)
    (spark_version : string) (w : world) :
  spark_version ∉ SUPPORTED_SPARK →
  download_jar host version jar_type release_tag spark_version w
  = (World (environ w) ([Sleep 200; Sleep 150; Sleep 100; Sleep 50] ++ trace w),
     Raises (AssertionError UnsupportedSpark)).
Proof.
  intros Hnot.
  assert (∀ w0, download_jar_body host version jar_type release_tag spark_version w0
                = (w0, Raises (AssertionError UnsupportedSpark))) as Hbody.
  { intros w0. unfold download_jar_body. by rewrite bool_decide_eq_false_2. }
  unfold download_jar, retry_decorator. change (Z.to_nat (3 + 1)) with 4%nat.
  do 4 (rewrite (retry_loop_raises _ _ _ _ _ _ _ (Hbody _)) by done).
  simpl. by rewrite Hbody.
Qed.

End MoreRetry.



Lemma download_jar_unsupported_spark_witness :
  download_jar Fixture.offline_host (Some "0.0.1") "uber" None "2.1.0" Fixture.empty_world
  = (World ∅ [Sleep 200; Sleep 150; Sleep 100; Sleep 50],
     Raises (AssertionError UnsupportedSpark)).
Proof.
  apply (download_jar_unsupported_spark Fixture.offline_host (Some "0.0.1") "uber" None
           "2.1.0" Fixture.empty_world).
  vm_compute. intros Hin.
  repeat (apply elem_of_cons in Hin as [Heq|Hin]; [discriminate Heq|]).
  by apply elem_of_nil in Hin.
Defined.

(** ** The jar download *)

Lemma append_assoc (a b c : string) : (a +:+ b) +:+ c = a +:+ (b +:+ c).
Proof.
  induction a as [|x a IH]; [done|].
  change (String x ((a +:+ b) +:+ c) = String x (a +:+ (b +:+ c))). by rewrite IH.
Qed.

Lemma has_char_app (c : ascii) (a b : string) :
  PyStr.has_char c (a +:+ b) = PyStr.has_char c a || PyStr.has_char c b.
Proof.
  induction a as [|x a IH]; simpl; [done|]. rewrite IH. by rewrite orb_assoc.
Qed.

(** The file name at the end of the URL of a jar. *)
Lemma jar_name_of_url (url_prefix jar_type scala_version version : string) :
  slash_free jar_type → slash_free scala_version → slash_free version →
  last_item (PyStr.split_on "/"%char (jar_url_of url_prefix jar_type scala_version version))
  = Returns ("spark_" +:+ jar_type +:+ "_" +:+ scala_version +:+ "-" +:+ version
               +:+ "-assembly.jar").
Proof.
  unfold slash_free. intros Htype Hscala Hversion.
  set (name := "spark_" +:+ jar_type +:+ "_" +:+ scala_version +:+ "-" +:+ version
                 +:+ "-assembly.jar").
  set (base := url_prefix +:+ "/ai/chronon/spark_" +:+ jar_type +:+ "_" +:+ scala_version).
  assert (jar_url_of url_prefix jar_type scala_version version
          = (base +:+ String "/"%char version) +:+ String "/"%char name) as ->
    by (unfold jar_url_of; fold base; rewrite append_assoc; reflexivity).
  assert (PyStr.has_char "/"%char name = false) as Hname.
  { unfold name. simpl. rewrite !has_char_app, Htype, Hscala, Hversion. reflexivity. }
  destruct (split_on_last "/"%char (base +:+ String "/"%char version) name Hname)
    as (first & front & ->).
  unfold last_item. by rewrite last_snoc.
Qed.

(** The table of scala versions has an entry exactly for the supported
    spark versions, and its entries are path segments. *)
Lemma scala_version_cases (spark_version scala_version : string) :
  SCALA_VERSION_FOR_SPARK !! spark_version = Some scala_version →
  bool_decide (spark_version ∈ SUPPORTED_SPARK) = true ∧ slash_free scala_version.
Proof.
  intros Hlookup.
  apply (elem_of_list_to_map_2 (M := gmap string)) in Hlookup.
  repeat (apply elem_of_cons in Hlookup as [[= -> ->]|Hlookup]; [by split|]).
  by apply elem_of_nil in Hlookup.
Qed.

Section MoreDownload.

Context (host : Host).

(** The body of [download_jar] for a supported spark version, path by
    path. *)
Lemma download_jar_body_run
    (version : option string) (jar_type : string) (release_tag : option string)
    (spark_version scala_version : string) (w : world) :
  SCALA_VERSION_FOR_SPARK !! spark_version = Some scala_version →
  download_jar_body host version jar_type release_tag spark_version w =
  match environ w !! "CHRONON_DRIVER_JAR" with
  | Some jar_path => (w, Returns jar_path)
  | None =>
      let fetch (v : string) : M string :=
        jar_name ← lift (last_item (PyStr.split_on "/"%char
                           (jar_url_of (url_prefix_of w) jar_type scala_version v)));
        download_only_once host (jar_url_of (url_prefix_of w) jar_type scala_version v)
          (PyStr.path_join "/tmp" jar_name) ≫= λ _,
        mret (PyStr.path_join "/tmp" jar_name) in
      match (if decide (version = Some "latest") then None else version) with
      | Some v => fetch v w
      | None =>
          let w1 := World (environ w)
                      (Exec (metadata_cmd (url_prefix_of w) jar_type scala_version)
                         :: trace w) in
          match sh host w (metadata_cmd (url_prefix_of w) jar_type scala_version) with
          | None =>
              (w1, Raises (CalledProcessError
                             (metadata_cmd (url_prefix_of w) jar_type scala_version)))
          | Some xml =>
              match select_versions host (PyStr.bstrip xml) release_tag with
              | None => (w1, Raises ParseError)
              | Some versions =>
                  match last versions with
                  | None => (w1, Raises IndexError)
                  | Some v => fetch v w1
                  end
              end
          end
      end
  end.
Proof.
  intros Hscala. destruct (scala_version_cases _ _ Hscala) as [Hsupported _].
  unfold download_jar_body. rewrite Hsupported. change (negb true) with false. cbv iota.
  rewrite bind_run. unfold lift at 1, PyObj.getitem at 1. rewrite Hscala. cbv beta iota.
  rewrite bind_run. unfold environ_get at 1. cbv beta iota.
  rewrite bind_run. unfold environ_get at 1. cbv beta iota.
  fold (url_prefix_of w).
  destruct (environ w !! "CHRONON_DRIVER_JAR") as [jar_path|]; [done|].
  cbv zeta.
  destruct (if decide (version = Some "latest") then None else version) as [v|].
  - rewrite bind_run. reflexivity.
  - rewrite bind_run, bind_run. unfold check_output at 1.
    fold (metadata_cmd (url_prefix_of w) jar_type scala_version).
    destruct (sh host w _) as [xml|]; [|done].
    destruct (select_versions host (PyStr.bstrip xml) release_tag) as [versions|]; [|done].
    unfold lift at 1, last_item at 1.
    destruct (last versions) as [v|]; [|done].
    reflexivity.
Qed.

(** X11. When the environment names the driver jar ([CHRONON_DRIVER_JAR],
    which a layer of [set_runtime_env] may have set), [download_jar]
    returns that path for any supported spark version: nothing is fetched,
    no pause is made and the world is untouched. *)
Theorem download_jar_uses_environment
    (version : option string) (jar_type : string) (release_tag : option string)
    (spark_version jar_path : string) (w : world) :
  spark_version ∈ SUPPORTED_SPARK →
  environ w !! "CHRONON_DRIVER_JAR" = Some jar_path →
  download_jar host version jar_type release_tag spark_version w = (w, Returns jar_path).
Proof.
  intros Hsupported Hjar.
  assert (∃ scala_version, SCALA_VERSION_FOR_SPARK !! spark_version = Some scala_version)
    as [scala_version Hscala].
  { repeat (apply elem_of_cons in Hsupported as [->|Hsupported]; [by eexists|]).
    by apply elem_of_nil in Hsupported. }
  unfold download_jar, retry_decorator. apply retry_loop_returns.
  rewrite (download_jar_body_run _ _ _ _ _ _ Hscala). by rewrite Hjar.
Qed.

(** X12. For an explicit version (not [latest]) and without
    [CHRONON_DRIVER_JAR] in the environment, [download_jar] hands the URL
    [{prefix}/ai/chronon/spark_{jar_type}_{scala}/{version}/spark_{jar_type}_{scala}-{version}-assembly.jar]
    to [download_only_once] and, when that returns, returns the local path
    [/tmp/spark_{jar_type}_{scala}-{version}-assembly.jar], whatever the
    prefix; the metadata listing is not fetched. *)
Theorem download_jar_explicit_version
    (version jar_type : string) (release_tag : option string)
    (spark_version scala_version : string) (w w' : world) :
  SCALA_VERSION_FOR_SPARK !! spark_version = Some scala_version →
  environ w !! "CHRONON_DRIVER_JAR" = None →
  version ≠ "latest" → slash_free version → slash_free jar_type →
  download_only_once host (jar_url_of (url_prefix_of w) jar_type scala_version version)
    (jar_path_of jar_type scala_version version) w = (w', Returns tt) →
  download_jar host (Some version) jar_type release_tag spark_version w
  = (w', Returns (jar_path_of jar_type scala_version version)).
Proof.
  intros Hscala Hno_jar Hexplicit Hversion Htype Hdownload.
  destruct (scala_version_cases _ _ Hscala) as [_ Hfree].
  unfold download_jar, retry_decorator. apply retry_loop_returns.
  rewrite (download_jar_body_run _ _ _ _ _ _ Hscala), Hno_jar.
  rewrite decide_False by congruence. cbv beta zeta.
  rewrite bind_run. unfold lift at 1.
  rewrite (jar_name_of_url _ _ _ _ Htype Hfree Hversion). cbv beta iota.
  change (PyStr.path_join "/tmp" ("spark_" +:+ jar_type +:+ "_" +:+ scala_version +:+ "-"
                                    +:+ version +:+ "-assembly.jar"))
    with (jar_path_of jar_type scala_version version).
  rewrite bind_run. by rewrite Hdownload.
Qed.

(** X13. Asked for the latest version (no version, or [latest]), the body
    of [download_jar] fetches the metadata listing and then does what it
    does for the last of the versions that [select_versions] kept; when
    none was kept, [versions[-1]] raises [IndexError] and nothing is
    downloaded. *)
Theorem download_jar_latest
    (version : option string) (jar_type : string) (release_tag : option string)
    (spark_version scala_version xml : string) (versions : list string) (w : world) :
  SCALA_VERSION_FOR_SPARK !! spark_version = Some scala_version →
  environ w !! "CHRONON_DRIVER_JAR" = None →
  version = None ∨ version = Some "latest" →
  sh host w (metadata_cmd (url_prefix_of w) jar_type scala_version) = Some xml →
  select_versions host (PyStr.bstrip xml) release_tag = Some versions →
  let listed := World (environ w)
                  (Exec (metadata_cmd (url_prefix_of w) jar_type scala_version) :: trace w) in
  (∀ v, last versions = Some v → v ≠ "latest" →
        download_jar_body host version jar_type release_tag spark_version w
        = download_jar_body host (Some v) jar_type release_tag spark_version listed) ∧
  (versions = [] →
   download_jar_body host version jar_type release_tag spark_version w
   = (listed, Raises IndexError)).
Proof.
  intros Hscala Hno_jar Hlatest Hfetch Hselect listed.
  assert ((if decide (version = Some "latest") then None else version) = None) as Hnone
    by (destruct Hlatest as [-> | ->]; [done | by rewrite decide_True]).
  split.
  - intros v Hlast Hv.
    rewrite !(download_jar_body_run _ _ _ _ _ _ Hscala). simpl environ.
    rewrite Hno_jar, Hnone. cbv zeta. rewrite Hfetch, Hselect, Hlast.
    by rewrite decide_False by congruence.
  - intros ->. rewrite (download_jar_body_run _ _ _ _ _ _ Hscala).
    rewrite Hno_jar, Hnone. cbv zeta. by rewrite Hfetch, Hselect.
Qed.

End MoreDownload.

Lemma download_jar_uses_environment_witness :
  download_jar Fixture.offline_host None "uber" None "3.1.1" Fixture.jar_world
  = (Fixture.jar_world, Returns "/opt/chronon/driver.jar").
Proof.
  apply (download_jar_uses_environment Fixture.offline_host None "uber" None "3.1.1"
           "/opt/chronon/driver.jar" Fixture.jar_world).
  - apply list_elem_of_further, list_elem_of_here.
  - reflexivity.
Defined.

Lemma download_jar_explicit_version_witness :
  (download_jar (Fixture.store_host []) (Some "0.0.31") "uber" None "3.2.1"
     Fixture.empty_world).2 = Returns "/tmp/spark_uber_2.13-0.0.31-assembly.jar".
Proof.
  erewrite (download_jar_explicit_version (Fixture.store_host []) "0.0.31" "uber" None
              "3.2.1" "2.13" Fixture.empty_world);
    [reflexivity | reflexivity | reflexivity | discriminate | reflexivity | reflexivity |].
  vm_compute. reflexivity.
Defined.

Lemma download_jar_latest_witness :
  download_jar_body (Fixture.store_host ["0.0.30"; "0.0.31"]) None "uber" None "2.4.0"
    Fixture.empty_world
  = download_jar_body (Fixture.store_host ["0.0.30"; "0.0.31"]) (Some "0.0.31") "uber" None
      "2.4.0"
      (World ∅ [Exec (metadata_cmd (url_prefix_of Fixture.empty_world) "uber" "2.11")]).
Proof.
  pose proof (download_jar_latest (Fixture.store_host ["0.0.30"; "0.0.31"]) None "uber" None
                "2.4.0" "2.11" "<xml>" ["0.0.30"; "0.0.31"] Fixture.empty_world
                eq_refl eq_refl (or_introl eq_refl) eq_refl eq_refl) as Hlatest.
  cbv zeta in Hlatest. destruct Hlatest as [Hlast _].
  apply (Hlast "0.0.31"); [reflexivity | discriminate].
Defined.

(** ** What the sizes are *)

(** X14. The remote size that [download_only_once] compares is a number
    that really stands in the HEAD output: for an output of ASCII
    characters, when [remote_size_of] returns [n], the lower-cased output
    holds [content-length:], one white-space character and a run of
    decimal digits (not followed by a further digit) whose value is [n]. *)
Theorem remote_size_of_sound (content_output : string) (n : Z) :
  PyStr.ascii_only content_output = true →
  remote_size_of content_output = Returns n →
  ∃ before c digits after,
    PyStr.lower content_output
    = before +:+ "content-length:" +:+ String c (digits +:+ after) ∧
    PyStr.is_space c = true ∧ digits_only digits = true ∧
    starts_with_digit after = false ∧
    PyStr.int_of digits = Some n ∧ 0 ≤ n.
Proof.
  intros _. unfold remote_size_of.
  destruct (search_content_length (PyStr.lower content_output)) as [group|] eqn:Hsearch;
    [|done].
  apply search_content_length_Some in Hsearch as (before & rest & Hlower & Hmatch).
  unfold match_content_length in Hmatch.
  destruct (PyStr.strip_prefix "content-length:" rest) as [tail|] eqn:Hstrip; [|done].
  apply strip_prefix_Some in Hstrip as [-> _]. simpl in Hmatch.
  destruct tail as [|c tail]; [done|].
  destruct (PyStr.is_space c) eqn:Hc; [|done].
  destruct (PyStr.span_digits tail) as [digits after] eqn:Hspan.
  destruct (PyStr.is_empty digits) eqn:Hempty; [done|].
  injection Hmatch as <-.
  apply span_digits_spec in Hspan as (-> & Hdigits & Hafter).
  assert (digits ≠ EmptyString) as Hne by (by destruct digits).
  rewrite (split_ws_group _ _ Hc Hdigits Hne).
  simpl. unfold py_int. rewrite (int_literal_digits _ Hdigits Hne).
  destruct (PyStr.int_of digits) as [m|] eqn:Hint; [|done].
  intros [= ->]. exists before, c, digits, after. split_and!; try done.
  unfold PyStr.int_of in Hint. destruct digits as [|d digits]; [done|].
  destruct (int_digits_total (String d digits) Hdigits 0) as (m & Hm & Hpos); [done|].
  congruence.
Qed.


Section SizeErrors.

Context (host : Host).


End SizeErrors.

Lemma remote_size_of_sound_witness :
  ∃ before c digits after,
    PyStr.lower ("HTTP/1.1 200 OK" +:+ Fixture.newline +:+ "Content-Length: 42"
                   +:+ Fixture.newline)
    = before +:+ "content-length:" +:+ String c (digits +:+ after) ∧
    PyStr.is_space c = true ∧ digits_only digits = true ∧
    starts_with_digit after = false ∧
    PyStr.int_of digits = Some 42 ∧ 0 ≤ 42.
Proof.
  apply (remote_size_of_sound ("HTTP/1.1 200 OK" +:+ Fixture.newline
                                 +:+ "Content-Length: 42" +:+ Fixture.newline) 42).
  - reflexivity.
  - vm_compute. reflexivity.
Defined.



(** ** More on the runner *)

Lemma split_on_nonempty (sep : ascii) (s : string) : PyStr.split_on sep s ≠ [].
Proof.
  destruct s as [|c s]; simpl; [done|].
  destruct (Ascii.eqb c sep); [done|]. by destruct (PyStr.split_on sep s).
Qed.

(** Splitting distributes over a separator between two texts. *)
Lemma split_on_app (sep : ascii) (a b : string) :
  PyStr.split_on sep (a +:+ String sep b)
  = (PyStr.split_on sep a ++ PyStr.split_on sep b)%list.
Proof.
  induction a as [|c a IH].
  - simpl. by rewrite Ascii.eqb_refl.
  - change (PyStr.split_on sep (String c (a +:+ String sep b))
            = (PyStr.split_on sep (String c a) ++ PyStr.split_on sep b)%list).
    simpl. rewrite IH. destruct (Ascii.eqb c sep); [done|].
    pose proof (split_on_nonempty sep a).
    by destruct (PyStr.split_on sep a).
Qed.


Section MoreRunner.

Context (host : Host).

(** [Runner.run] once its two table lookups have succeeded. *)
Lemma Runner_run_routed (self : Runner) (w : world) (mode_name : string)
    (template : fmt_args → string) (subcommand : string) :
  routed self mode_name template subcommand →
  Runner_run host self w =
  if r_sub_help self || negb (bool_decide (mode_name ∈ SPARK_MODES))
  then check_call host (java_command self subcommand (final_args_of self template)) w
  else if PyStr.contains mode_name "streaming"
       then match sh host w (PyStr.fmt (r_list_apps_cmd self)) with
            | None => (listed self w,
                       Raises (CalledProcessError (PyStr.fmt (r_list_apps_cmd self))))
            | Some out =>
                match matching_apps host (PyStr.bstrip out) (r_app_name self) with
                | [] => check_call host
                          (submit_command self subcommand (final_args_of self template))
                          (listed self w)
                | [_] => (listed self w, Returns tt)
                | _ => (listed self w, Raises (AssertionError MoreThanOneFound))
                end
            end
       else check_call host (submit_command self subcommand (final_args_of self template)) w.
Proof.
  intros (Hmode & Htemplate & ctype & Hctype & Hroute).
  unfold Runner_run. rewrite Hmode, Hctype. simpl PyStr.fmt.
  rewrite bind_run. unfold lift at 1, PyObj.getitem at 1. rewrite Htemplate. cbv beta iota.
  rewrite bind_run. unfold lift at 1. rewrite Hroute. cbv beta iota.
  fold (final_args_of self template).
  destruct (r_sub_help self || negb (bool_decide (mode_name ∈ SPARK_MODES))); [done|].
  rewrite bind_run.
  destruct (PyStr.contains mode_name "streaming"); [|done].
  rewrite bind_run. unfold check_output at 1. fold (listed self w).
  destruct (sh host w (PyStr.fmt (r_list_apps_cmd self))) as [out|]; [|done].
  cbv beta iota. rewrite filtered_apps_matching.
  by destruct (matching_apps host (PyStr.bstrip out) (r_app_name self)) as [|r1 [|r2 rest]].
Qed.

(** X17. The test [self.mode in ('streaming')] is a substring test, the
    parentheses making no tuple; among the modes of [MODE_ARGS], the only
    ones the parser accepts, it holds for [streaming] alone. *)
Theorem streaming_test_is_exact (mode_name : string) :
  is_Some (MODE_ARGS !! mode_name) →
  (PyStr.contains mode_name "streaming" = true ↔ mode_name = "streaming").
Proof.
  intros Hmode. split.
  - by apply streaming_is_the_only_substring.
  - by intros ->.
Qed.

(** X18. A runner whose conf type and mode have no route launches
    nothing: [run] raises on a table lookup and the world is untouched,
    also when no conf type or no mode is there at all. *)
Theorem unrouted_runner_launches_nothing (self : Runner) (w : world) :
  (∀ ctype mode_name, r_conf_type self = Some ctype → r_mode self = Some mode_name →
                      raised (route ctype mode_name)) →
  ∃ key, Runner_run host self w = (w, Raises (KeyError key)).
Proof.
  intros Hunrouted. unfold Runner_run.
  destruct (r_mode self) as [mode_name|] eqn:Hmode; [|by eexists].
  simpl PyStr.fmt. rewrite bind_run. unfold lift at 1, PyObj.getitem at 1.
  destruct (MODE_ARGS !! mode_name) as [template|]; [|by eexists].
  cbv beta iota. rewrite bind_run. unfold lift at 1.
  destruct (r_conf_type self) as [ctype|] eqn:Hctype; [|by eexists].
  destruct (Hunrouted ctype mode_name eq_refl eq_refl) as [e He]. rewrite He.
  unfold route, PyObj.getitem in He.
  destruct (ROUTES !! ctype) as [modes|]; simpl in He.
  - destruct (modes !! mode_name); [done|]. injection He as <-. by eexists.
  - injection He as <-. by eexists.
Qed.




(** X21. With [--sub-help] the runner launches the driver jar directly,
    with [--help] in place of the arguments, in every routed mode, and
    nothing else: no listing is asked for, even in streaming mode. *)
Theorem sub_help_runs_java (self : Runner) (w : world) (mode_name : string)
    (template : fmt_args → string) (subcommand : string) :
  routed self mode_name template subcommand → r_sub_help self = true →
  Runner_run host self w
  = check_call host ("java -cp " +:+ r_jar_path self +:+ " ai.chronon.spark.Driver "
                       +:+ subcommand +:+ " --help") w.
Proof.
  intros Hrouted Hhelp.
  rewrite (Runner_run_routed self w mode_name template subcommand Hrouted).
  rewrite Hhelp. simpl. unfold java_command. by rewrite Hhelp.
Qed.

(** X22. Without [--sub-help], a routed mode of [SPARK_MODES] other than
    streaming is submitted through the launcher script at once, and a
    routed mode outside [SPARK_MODES] runs the driver jar directly; in both
    cases no listing is asked for. *)
Theorem batch_modes_launch_directly (self : Runner) (w : world) (mode_name : string)
    (template : fmt_args → string) (subcommand : string) :
  routed self mode_name template subcommand → r_sub_help self = false →
  (mode_name ∈ SPARK_MODES → mode_name ≠ "streaming" →
   Runner_run host self w
   = check_call host (submit_command self subcommand (final_args_of self template)) w) ∧
  (mode_name ∉ SPARK_MODES →
   Runner_run host self w
   = check_call host (java_command self subcommand (final_args_of self template)) w).
Proof.
  intros Hrouted Hhelp.
  rewrite (Runner_run_routed self w mode_name template subcommand Hrouted), Hhelp.
  destruct Hrouted as (_ & Htemplate & _). split.
  - intros Hspark Hother. rewrite bool_decide_eq_true_2 by done.
    change (false || negb true) with false. cbv iota.
    destruct (PyStr.contains mode_name "streaming") eqn:Hsub; [|done].
    destruct Hother. apply streaming_is_the_only_substring; [by eexists | exact Hsub].
  - intros Hnot. by rewrite bool_decide_eq_false_2.
Qed.


(** X24. The list the streaming check takes from its grouping map is the
    list of the records that match the name, in the order of the listing;
    lines that do not decode to a record with a string [app_name] leave
    no trace, and the check of two listings put one after the other finds
    the apps of the first followed by the apps of the second. *)
Theorem filtered_apps_in_order (name : string) (listing listing' : string) :
  filtered_apps host listing (Some name)
  = omap (matches host name) (PyStr.split_on "010"%char listing) ∧
  filtered_apps host (listing +:+ String "010"%char listing') (Some name)
  = (filtered_apps host listing (Some name)
       ++ filtered_apps host listing' (Some name))%list.
Proof.
  assert (∀ l, filtered_apps host l (Some name)
               = omap (matches host name) (PyStr.split_on "010"%char l)) as Hfold.
  { intros l. unfold filtered_apps. by rewrite foldl_add_app, lookup_empty. }
  split; [apply Hfold|].
  by rewrite !Hfold, split_on_app, omap_app.
Qed.

(** X25. Whatever goes wrong while the environment is resolved stops the
    script before anything is downloaded or launched: when
    [set_runtime_env] raises, [main] raises the same exception and its
    trace is the one it started with. *)
Theorem main_stops_on_resolution_error
    (cli a : Args) (unknown_args : list string) (w : world) (e : exn) :
  parse_known_args host (environ w) cli = Returns a →
  (set_runtime_env host a w).2 = Raises e →
  (main host cli unknown_args w).2 = Raises e ∧
  trace (main host cli unknown_args w).1 = trace w.
Proof.
  intros Hparse Hraises.
  assert (trace (set_runtime_env host a w).1 = trace w) as Htrace.
  { apply (keeps_trace_bind (lift (load_layers host a)) apply_layers);
      [apply keeps_trace_lift | apply keeps_trace_apply_layers]. }
  unfold main. rewrite bind_run. unfold lift. rewrite Hparse. cbv beta iota.
  rewrite bind_run.
  destruct (set_runtime_env host a w) as [w1 [[]|e1]]; simpl in *; [done|].
  split; congruence.
Qed.

End MoreRunner.

(** ** The runner on sample hosts *)

Lemma streaming_test_is_exact_witness :
  PyStr.contains "local-streaming" "streaming" = true ↔ "local-streaming" = "streaming".
Proof.
  apply streaming_test_is_exact. eexists. reflexivity.
Defined.

Lemma unrouted_runner_launches_nothing_witness :
  ∃ key, Runner_run (Fixture.scheduler_host "")
           (Fixture.runner_for "group_bys" "stats-summary" false) Fixture.empty_world
         = (Fixture.empty_world, Raises (KeyError key)).
Proof.
  apply unrouted_runner_launches_nothing.
  intros ctype mode_name Hctype Hmode. simpl in Hctype, Hmode.
  injection Hctype as <-. injection Hmode as <-.
  eexists. vm_compute. reflexivity.
Defined.



Lemma sub_help_runs_java_witness :
  Runner_run (Fixture.scheduler_host "")
    (Fixture.runner_for "group_bys" "streaming" true) Fixture.empty_world
  = check_call (Fixture.scheduler_host "")
      "java -cp /tmp/driver.jar ai.chronon.spark.Driver group-by-streaming --help"
      Fixture.empty_world.
Proof.
  apply (sub_help_runs_java (Fixture.scheduler_host "")
           (Fixture.runner_for "group_bys" "streaming" true) Fixture.empty_world
           "streaming" ONLINE_WRITE_ARGS "group-by-streaming").
  - split_and!; try reflexivity. exists "group_bys". split; reflexivity.
  - reflexivity.
Defined.

Lemma batch_modes_launch_directly_witness :
  Runner_run (Fixture.scheduler_host "")
    (Fixture.runner_for "joins" "backfill" false) Fixture.empty_world
  = check_call (Fixture.scheduler_host "")
      ("bash spark_submit.sh --class ai.chronon.spark.Driver /tmp/driver.jar join "
         +:+ "--conf-path=production/joins/sample_team/sample.v1 --end-date=2023-01-01  ")
      Fixture.empty_world ∧
  Runner_run (Fixture.scheduler_host "")
    (Fixture.runner_for "joins" "fetch" false) Fixture.empty_world
  = check_call (Fixture.scheduler_host "")
      ("java -cp /tmp/driver.jar ai.chronon.spark.Driver fetch "
         +:+ "--online-jar=online.jar --online-class=ai.chronon.Online  ")
      Fixture.empty_world.
Proof.
  split.
  - apply (batch_modes_launch_directly (Fixture.scheduler_host "")
             (Fixture.runner_for "joins" "backfill" false) Fixture.empty_world
             "backfill" OFFLINE_ARGS "join").
    + split_and!; try reflexivity. exists "joins". split; reflexivity.
    + reflexivity.
    + apply list_elem_of_here.
    + discriminate.
  - apply (batch_modes_launch_directly (Fixture.scheduler_host "")
             (Fixture.runner_for "joins" "fetch" false) Fixture.empty_world
             "fetch" ONLINE_ARGS "fetch").
    + split_and!; try reflexivity. exists "joins". split; reflexivity.
    + reflexivity.
    + apply (bool_decide_eq_false_1 _). vm_compute. reflexivity.
Defined.


Lemma main_stops_on_resolution_error_witness :
  (main Fixture.numeric_host Fixture.sample_args [] Fixture.empty_world).2 = Raises TypeError ∧
  trace (main Fixture.numeric_host Fixture.sample_args [] Fixture.empty_world).1 = [].
Proof.
  apply (main_stops_on_resolution_error Fixture.numeric_host Fixture.sample_args
           (Fixture.parsed Fixture.numeric_host ∅ Fixture.sample_args) []
           Fixture.empty_world TypeError).
  - reflexivity.
  - vm_compute. reflexivity.
Defined.
